(** * image-gen: a shallow embedding of [generate.py]

    The development follows the layout of the script: Python string
    helpers, the model table and [select_model], the JSON values the
    script handles, the world the script runs in (session file, file
    system, clock, network), [save_image], the two provider adapters with
    their retry loop, the orchestrator [generate] and the command
    dispatcher [main].  Standard output is not modelled; every other
    effect is threaded explicitly through a state-and-exception monad. *)

From Stdlib Require Import Ascii NArith Bool Lia.
From stdpp Require Import base gmap sets list strings pretty.

(** ** Python [str] operations *)

(** A [str] is modelled as a [string] whose characters are the code points
    0..255 (Latin-1), on which [str.lower] acts character by character. *)
Module PyStr.

Definition lower_char (c : ascii) : ascii :=
  let n := N_of_ascii c in
  if ((65 <=? n) && (n <=? 90))%N
     || ((192 <=? n) && (n <=? 222) && negb (n =? 215))%N
  then ascii_of_N (n + 32)
  else c.

(** [s.lower()] *)
Fixpoint lower (s : string) : string :=
  match s with
  | EmptyString => EmptyString
  | String c s' => String (lower_char c) (lower s')
  end.

(** [s.startswith(p)] *)
Fixpoint startswith (p s : string) : bool :=
  match p, s with
  | EmptyString, _ => true
  | String a p', String b s' => if Ascii.eqb a b then startswith p' s' else false
  | String _ _, EmptyString => false
  end.

(** [kw in s] *)
Fixpoint contains (kw s : string) : bool :=
  startswith kw s ||
  match s with
  | EmptyString => false
  | String _ s' => contains kw s'
  end.

(** [s.endswith(p)]: [p] is [s] or the end of what follows its first
    character. *)
Fixpoint endswith (p s : string) : bool :=
  String.eqb p s ||
  match s with
  | EmptyString => false
  | String _ s' => endswith p s'
  end.

(** [sep.join(l)] *)
Fixpoint join (sep : string) (l : list string) : string :=
  match l with
  | [] => ""
  | [x] => x
  | x :: l' => x +:+ sep +:+ join sep l'
  end.

(** [bool(s)] *)
Definition nonempty (s : string) : bool :=
  match s with EmptyString => false | _ => true end.

End PyStr.

(** ** Configuration *)

Definition MAX_RETRIES : nat := 3.
Definition RETRY_BACKOFF_BASE : nat := 2.

(** The dict [MODELS], in insertion order (the order of [MODELS.keys()]). *)
Definition MODELS : list (string * string) :=
  [ ("nano-banana", "google/gemini-2.5-flash-image-preview");
    ("nano-banana-pro", "google/gemini-3-pro-image-preview");
    ("gpt-image", "gpt-image-1");
    ("gpt-image-1.5", "gpt-image-1.5");
    ("gpt-image-mini", "gpt-image-1-mini") ].

Definition DEFAULT_MODEL : string := "nano-banana-pro".

(** [d.get(k)] on an insertion-ordered dict with distinct keys. *)
Fixpoint assoc {A} (k : string) (d : list (string * A)) : option A :=
  match d with
  | [] => None
  | (k', v) :: d' => if String.eqb k k' then Some v else assoc k d'
  end.

Definition keys {A} (d : list (string * A)) : list string := map fst d.

(** ** Model selection *)

Definition transparency_keywords : list string :=
  [ "transparent"; "transparency"; "png with alpha";
    "no background"; "remove background"; "cutout";
    "isolated on"; "white background"; "clear background" ].

Definition text_keywords : list string :=
  [ "text"; "typography"; "lettering"; "words"; "title";
    "heading"; "sign"; "poster with text"; "logo with text";
    "banner"; "quote"; "writing" ].

Definition fast_keywords : list string :=
  [ "quick"; "draft"; "rough"; "sketch"; "fast"; "test" ].

Definition highres_keywords : list string :=
  [ "4k"; "high res"; "high resolution"; "detailed";
    "print quality"; "large format"; "poster"; "wallpaper" ].

(** [any(kw in prompt_lower for kw in kws)] *)
Definition any_in (kws : list string) (prompt_lower : string) : bool :=
  existsb (fun kw => PyStr.contains kw prompt_lower) kws.

Definition select_model (prompt : string)
    (transparent high_res fast text_heavy : bool) : string :=
  let prompt_lower := PyStr.lower prompt in
  if transparent || any_in transparency_keywords prompt_lower then "gpt-image-1.5"
  else if text_heavy || any_in text_keywords prompt_lower then "gpt-image-1.5"
  else if fast || any_in fast_keywords prompt_lower then "nano-banana"
  else if high_res || any_in highres_keywords prompt_lower then "nano-banana-pro"
  else "nano-banana-pro".

(** ** JSON values *)

(** What [json.loads] yields: [None], booleans, integers, strings, lists
    and dicts (insertion-ordered, with distinct keys). *)
#[local] Set Warnings "-register-all".
Inductive json : Type :=
| JNull
| JBool (b : bool)
| JNum (n : Z)
| JStr (s : string)
| JList (l : list json)
| JDict (d : list (string * json)).

(** [bool(v)] *)
Definition truthy (v : json) : bool :=
  match v with
  | JNull => false
  | JBool b => b
  | JNum n => negb (n =? 0)%Z
  | JStr s => PyStr.nonempty s
  | JList l => match l with [] => false | _ => true end
  | JDict d => match d with [] => false | _ => true end
  end.

(** [a or b] *)
Definition py_or (a b : json) : json := if truthy a then a else b.

Definition is_dict (v : json) : bool :=
  match v with JDict _ => true | _ => false end.

Definition is_list (v : json) : bool :=
  match v with JList _ => true | _ => false end.

(** [v == s] for a string literal [s] *)
Definition eq_str (v : json) (s : string) : bool :=
  match v with JStr s' => String.eqb s' s | _ => false end.

(** An optional command-line string as a Python value. *)
Definition of_opt (o : option string) : json :=
  match o with None => JNull | Some s => JStr s end.

(** ** Exceptions *)

(** [RequestException] stands for [requests.exceptions.RequestException]
    and all its subclasses ([ConnectionError], [Timeout], [SSLError],
    [HTTPError], ...): the only distinction the script makes. *)
Inductive exn_class : Type :=
| RequestException
| ValueError
| KeyError
| IndexError
| TypeError
| AttributeError
| FileNotFoundError
| ImportError
| UnboundLocalError.

Record exn : Type := Exn { exn_cls : exn_class; exn_msg : string }.

Definition is_RequestException (e : exn) : bool :=
  match exn_cls e with RequestException => true | _ => false end.

Inductive result (A : Type) : Type :=
| Ok (a : A)
| Raise (e : exn).
Arguments Ok {A} a.
Arguments Raise {A} e.

Definition result_bind {A B} (f : A → result B) (r : result A) : result B :=
  match r with Ok a => f a | Raise e => Raise e end.

#[global] Instance result_ret : MRet result := @Ok.
#[global] Instance result_mbind : MBind result := @result_bind.

(** *** Subscripts and methods on JSON values *)

(** [v[k]] for a string key *)
Definition getitem (v : json) (k : string) : result json :=
  match v with
  | JDict d =>
      match assoc k d with
      | Some x => Ok x
      | None => Raise (Exn KeyError k)
      end
  | JList _ | JStr _ => Raise (Exn TypeError "indices must be integers")
  | _ => Raise (Exn TypeError "object is not subscriptable")
  end.

Fixpoint string_nth (i : nat) (s : string) : option ascii :=
  match s, i with
  | EmptyString, _ => None
  | String c _, O => Some c
  | String _ s', S i' => string_nth i' s'
  end.

(** [v[i]] for an index [i >= 0] *)
Definition getidx (v : json) (i : nat) : result json :=
  match v with
  | JList l =>
      match l !! i with
      | Some x => Ok x
      | None => Raise (Exn IndexError "list index out of range")
      end
  | JStr s =>
      match string_nth i s with
      | Some c => Ok (JStr (String c ""))
      | None => Raise (Exn IndexError "string index out of range")
      end
  | JDict _ => Raise (Exn KeyError "0")
  | _ => Raise (Exn TypeError "object is not subscriptable")
  end.

(** [k in v] *)
Definition py_in (k : string) (v : json) : result bool :=
  match v with
  | JDict d => Ok (match assoc k d with Some _ => true | None => false end)
  | JList l => Ok (existsb (fun x => eq_str x k) l)
  | JStr s => Ok (PyStr.contains k s)
  | _ => Raise (Exn TypeError "argument is not iterable")
  end.

(** [v.get(k)] *)
Definition py_get (v : json) (k : string) : result json :=
  match v with
  | JDict d => Ok (default JNull (assoc k d))
  | _ => Raise (Exn AttributeError "object has no attribute 'get'")
  end.

(** ** The world the script runs in *)

Inductive request : Type :=
| JsonBody (payload : json)
| Multipart (image : string) (data : list (string * string)).

(** What one [requests.post] does: it raises, or it returns a response
    with a status code and a body ([None] when the body is not JSON). *)
Record response : Type := Response { status_code : nat; body : option json }.

Inductive outcome : Type :=
| PostRaises (e : exn)
| PostReturns (r : response).

Inductive event : Type :=
| EvPost (url : string) (req : request)
| EvSleep (seconds : nat).

(** What the script reads and cannot change. *)
Record Env : Type := {
  requests_installed : bool;
  OPENROUTER_API_KEY : option string;
  OPENAI_API_KEY : option string;
  cwd : string;                     (* str(Path.cwd()) *)
  resolve : string → string;        (* str(Path(p).expanduser().resolve()) *)
  now_stamp : string;               (* datetime.now().strftime("%Y%m%d_%H%M%S") *)
  now_iso : string;                 (* datetime.now().isoformat() *)
  file_b64 : string → string;       (* base64 of the bytes of a file *)
  b64_valid : string → bool;        (* base64.b64decode accepts the text *)
  glob_special : string → string → string → bool;
                                    (* Path(dir).glob(pattern) yields the path, for a
                                       pattern with more pattern characters than the
                                       star the script writes, or with a separator *)
  net : nat → outcome;              (* outcome of the n-th request sent *)
}.

(** What the script changes.  The session file, when present, holds a
    JSON object; a path is the string the script builds for it. *)
Record World : Type := {
  session_file : option (gmap string json);
  fs : gset string;                 (* paths of the files that exist *)
  posts : nat;                      (* requests sent so far *)
  trace : list event;               (* requests and sleeps, oldest first *)
}.

Definition M (A : Type) : Type := World → result A * World.

Definition M_ret {A} (a : A) : M A := λ w, (Ok a, w).

Definition M_bind {A B} (f : A → M B) (m : M A) : M B :=
  λ w, match m w with
       | (Ok a, w') => f a w'
       | (Raise e, w') => (Raise e, w')
       end.

#[global] Instance M_mret : MRet M := @M_ret.
#[global] Instance M_mbind : MBind M := @M_bind.

Definition raise {A} (cls : exn_class) (msg : string) : M A :=
  λ w, (Raise (Exn cls msg), w).

Definition reraise {A} (e : exn) : M A := λ w, (Raise e, w).

(** Lift a computation without effects. *)
Definition lift {A} (r : result A) : M A := λ w, (r, w).

(** [try: body / except Exception as e: handler(e)] *)
Definition try_except {A} (body : M A) (handler : exn → M A) : M A :=
  λ w, match body w with
       | (Ok a, w') => (Ok a, w')
       | (Raise e, w') => handler e w'
       end.

(** The world after one more event. *)
Definition logged (ev : event) (w : World) : World :=
  {| session_file := session_file w; fs := fs w;
     posts := posts w; trace := trace w ++ [ev] |}.

(** The world after one more request. *)
Definition sent (url : string) (req : request) (w : World) : World :=
  {| session_file := session_file w; fs := fs w;
     posts := S (posts w); trace := trace w ++ [EvPost url req] |}.

Definition emit (ev : event) : M unit := λ w, (Ok (), logged ev w).

(** [time.sleep(n)] *)
Definition sleep (n : nat) : M unit := emit (EvSleep n).

(** ** Paths and data URLs *)

Module PyPath.

(** The text after the last occurrence of [c], if [c] occurs. *)
Fixpoint after_last (c : ascii) (s : string) : option string :=
  match s with
  | EmptyString => None
  | String a s' =>
      match after_last c s' with
      | Some r => Some r
      | None => if Ascii.eqb a c then Some s' else None
      end
  end.

(** [Path(p).name] for a path without a trailing separator *)
Definition name (p : string) : string := default p (after_last "/" p).

(** [Path(p).suffix]: the last dot of the name and what follows it, unless
    that dot starts or ends the name. *)
Definition suffix (p : string) : string :=
  let n := name p in
  match after_last "." n with
  | Some r =>
      if PyStr.nonempty r && (String.length r + 1 <? String.length n)
      then String "." r else ""
  | None => ""
  end.

(** [s.split(sep)] *)
Fixpoint split (sep : ascii) (s : string) : list string :=
  match s with
  | EmptyString => [""]
  | String a s' =>
      if Ascii.eqb a sep then "" :: split sep s'
      else match split sep s' with
           | x :: l => String a x :: l
           | [] => [String a ""]
           end
  end.

(** The components a path string contributes: what lies between the
    separators, the empty pieces and the dots left out. *)
Definition components (s : string) : list string :=
  filter (λ c, PyStr.nonempty c && negb (String.eqb c ".") = true) (split "/" s).

(** [posixpath.splitroot]: the root is "/", or "//" for exactly two leading
    separators, or empty for a relative path. *)
Definition splitroot (s : string) : string * string :=
  match s with
  | String "/" (String "/" (String "/" r)) => ("/", String "/" (String "/" r))
  | String "/" (String "/" r) => ("//", r)
  | String "/" r => ("/", r)
  | _ => ("", s)
  end.

(** [Path(s)]: a root and the components after it. *)
Definition parse (s : string) : string * list string :=
  ((splitroot s).1, components (splitroot s).2).

(** [str(p)] *)
Definition to_str (p : string * list string) : string :=
  match p with
  | ("", []) => "."
  | (root, parts) => root +:+ PyStr.join "/" parts
  end.

(** [p / name]: an absolute [name] replaces [p], a relative one adds its
    components. *)
Definition child (p : string * list string) (name : string) : string * list string :=
  if PyStr.startswith "/" name then parse name
  else (p.1, p.2 ++ components name).

(** [str(Path(dir) / file)] *)
Definition joinpath (dir file : string) : string := to_str (child (parse dir) file).

(** [s.split(sep, 1)] when [sep] occurs: the text before and after the
    first occurrence. *)
Fixpoint split_once (sep : ascii) (s : string) : option (string * string) :=
  match s with
  | EmptyString => None
  | String a s' =>
      if Ascii.eqb a sep then Some ("", s')
      else match split_once sep s' with
           | Some (l, r) => Some (String a l, r)
           | None => None
           end
  end.

(** [s.split(sep)[0]] *)
Fixpoint before_first (sep : ascii) (s : string) : string :=
  match s with
  | EmptyString => ""
  | String a s' => if Ascii.eqb a sep then "" else String a (before_first sep s')
  end.

(** [s.replace(old, "")], scanning left to right; [skip] counts the
    characters of a match still to be dropped. *)
Fixpoint remove_all_go (old : string) (skip : nat) (s : string) : string :=
  match s with
  | EmptyString => ""
  | String a s' =>
      match skip with
      | S k => remove_all_go old k s'
      | O =>
          if PyStr.nonempty old && PyStr.startswith old s
          then remove_all_go old (String.length old - 1) s'
          else String a (remove_all_go old 0 s')
      end
  end.

Definition remove_all (old s : string) : string := remove_all_go old 0 s.

(** [s[len(p):]] when [s] starts with [p] *)
Fixpoint strip_prefix (p s : string) : option string :=
  match p, s with
  | EmptyString, _ => Some s
  | String a p', String b s' => if Ascii.eqb a b then strip_prefix p' s' else None
  | String _ _, EmptyString => None
  end.

(** A name that is one component of a path: not empty, without separator
    and not the dot. *)
Definition plain (name : string) : bool :=
  PyStr.nonempty name && negb (PyStr.contains "/" name) && negb (String.eqb name ".").

(** The text holds a pattern character of [Path.glob], or a separator. *)
Definition has_magic (s : string) : bool :=
  PyStr.contains "*" s || PyStr.contains "?" s || PyStr.contains "[" s
  || PyStr.contains "/" s.

(** What precedes the name in the string of an entry of the directory [p]. *)
Definition dir_prefix (p : string * list string) : string :=
  match p.2 with
  | [] => p.1
  | _ => p.1 +:+ PyStr.join "/" p.2 +:+ "/"
  end.

(** [path] is yielded by [Path(dir).glob(pfx + "*" + sfx)].  When [pfx] and
    [sfx] are plain text the star is the only pattern character: [path] is
    an entry of [dir] whose name starts with [pfx] and ends with [sfx]
    behind it.  For any other pattern the matching of [pathlib] is taken
    as given, in [special]. *)
Definition glob_match (special : string → string → string → bool)
    (dir pfx sfx path : string) : bool :=
  if has_magic pfx || has_magic sfx then special dir (pfx +:+ "*" +:+ sfx) path
  else
    match strip_prefix (dir_prefix (parse dir)) path with
    | Some entry =>
        plain entry
        && PyStr.startswith pfx entry
        && PyStr.endswith sfx entry
        && (String.length pfx + String.length sfx <=? String.length entry)
    | None => false
    end.

End PyPath.

(** [f"{n:03d}"] *)
Definition fmt_03d (n : nat) : string :=
  let digits := pretty n in
  String.string_of_list_ascii (replicate (3 - String.length digits) "0"%char)
    +:+ digits.

(** ** The script *)

Section Script.
Context (env : Env).

(** *** Session store *)

Definition default_session : gmap string json :=
  <["current_image" := JNull]> (<["history" := JList []]> (<["output_dir" := JNull]> ∅)).

Definition load_session : M (gmap string json) :=
  λ w, match session_file w with
       | Some session => (Ok session, w)
       | None => (Ok default_session, w)
       end.

Definition save_session (session : gmap string json) : M unit :=
  λ w, (Ok (), {| session_file := Some session; fs := fs w;
                  posts := posts w; trace := trace w |}).

Definition clear_session : M unit :=
  λ w, (Ok (), {| session_file := None; fs := fs w;
                  posts := posts w; trace := trace w |}).

(** [session.get(k)] *)
Definition session_get (session : gmap string json) (k : string) : json :=
  default JNull (session !! k).

(** *** Files *)

(** [open(path, "rb")] and reading the bytes, base64-encoded *)
Definition read_b64 (path : string) : M string :=
  λ w, if decide (path ∈ fs w) then (Ok (file_b64 env path), w)
       else (Raise (Exn FileNotFoundError path), w).

(** [open(path, "wb")] in a directory that exists: the file exists from
    then on *)
Definition create_file (path : string) : M unit :=
  λ w, (Ok (), {| session_file := session_file w; fs := {[path]} ∪ fs w;
                  posts := posts w; trace := trace w |}).

(** [output_dir.glob(pfx + "*" + sfx)] *)
Definition glob (dir pfx sfx : string) : M (gset string) :=
  λ w, (Ok (filter (λ p, PyPath.glob_match (glob_special env) dir pfx sfx p = true)
              (fs w)), w).

Definition mime_map : list (string * string) :=
  [ (".png", "image/png"); (".jpg", "image/jpeg");
    (".jpeg", "image/jpeg"); (".webp", "image/webp") ].

(** A truthy input image that is not a string cannot be opened as a path. *)
Definition as_path (v : json) : M string :=
  match v with
  | JStr s => mret s
  | _ => raise TypeError "expected str, bytes or os.PathLike object"
  end.

Definition image_to_base64 (image_path : json) : M (string * string) :=
  path ← as_path image_path;
  let suffix := PyStr.lower (PyPath.suffix path) in
  let mime_type := default "image/png" (assoc suffix mime_map) in
  data ← read_b64 path;
  mret (data, mime_type).

Definition ext_map : list (string * string) :=
  [ ("image/png", "png"); ("image/jpeg", "jpg"); ("image/jpg", "jpg");
    ("image/webp", "webp"); ("image/gif", "gif") ].

(** The extension and the payload of an image, from its data URL when it
    is one. *)
Definition detect_format (base64_data : string) : result (string * string) :=
  if PyStr.startswith "data:" base64_data then
    match PyPath.split_once "," base64_data with
    | Some (header, data) =>
        let mime_type := PyPath.remove_all "data:" (PyPath.before_first ";" header) in
        Ok (default "png" (assoc mime_type ext_map), data)
    | None => Raise (Exn ValueError "not enough values to unpack (expected 2, got 1)")
    end
  else Ok ("png", base64_data).

Definition save_image (base64_data : json) (output_dir : string)
    (prefix : string) : M string :=
  data ← match base64_data with
         | JStr s => mret s
         | _ => raise AttributeError "object has no attribute 'startswith'"
         end;
  '(ext, data) ← lift (detect_format data);
  let timestamp := now_stamp env in
  existing ← glob output_dir (prefix +:+ "_" +:+ timestamp +:+ "_") ("." +:+ ext);
  let index := size existing + 1 in
  let filename := prefix +:+ "_" +:+ timestamp +:+ "_" +:+ fmt_03d index +:+ "." +:+ ext in
  let output_path := PyPath.joinpath output_dir filename in
  create_file output_path;;
  (if b64_valid env data then mret ()
   else raise ValueError "Incorrect padding");;
  mret output_path.

(** *** Network *)

(** [requests.post(url, ...)] *)
Definition post (url : string) (req : request) : M response :=
  λ w, match net env (posts w) with
       | PostRaises e => (Raise e, sent url req w)
       | PostReturns r => (Ok r, sent url req w)
       end.

(** [response.raise_for_status()] *)
Definition raise_for_status (r : response) : M unit :=
  if (400 <=? status_code r) && (status_code r <? 600)
  then raise RequestException "HTTPError"
  else mret ().

(** [response.json()] *)
Definition response_json (r : response) : M json :=
  match body r with
  | Some v => mret v
  | None => raise ValueError "JSONDecodeError"
  end.

(** The retry loop of both adapters: [send] is the body of the [try],
    [attempts] what is left of [range(MAX_RETRIES)]. *)
Fixpoint retry_attempts (send : M response) (attempts : list nat) : M response :=
  match attempts with
  | [] => raise UnboundLocalError "response"
  | attempt :: rest =>
      try_except send (λ e,
        if is_RequestException e then
          if attempt <? MAX_RETRIES - 1 then
            let wait_time := RETRY_BACKOFF_BASE ^ attempt in
            sleep wait_time;;
            retry_attempts send rest
          else reraise e
        else reraise e)
  end.

Definition retry_loop (send : M response) : M response :=
  retry_attempts send (seq 0 MAX_RETRIES).

Definition import_requests : M unit :=
  if requests_installed env then mret ()
  else raise ImportError "requests not installed. Run: pip install requests".

Definition require_key (key : option string) (name : string) : M string :=
  match key with
  | Some k => if PyStr.nonempty k then mret k else raise ValueError (name +:+ " not set")
  | None => raise ValueError (name +:+ " not set")
  end.

(** *** Chat-multimodal adapter (OpenRouter) *)

Definition opt_truthy (o : option string) : bool :=
  match o with Some s => PyStr.nonempty s | None => false end.

Definition image_config (aspect_ratio image_size : option string)
    : list (string * json) :=
  (if opt_truthy aspect_ratio then [("aspect_ratio", of_opt aspect_ratio)] else [])
  ++ (if opt_truthy image_size then [("image_size", of_opt image_size)] else []).

Definition openrouter_payload (model : string) (content : list json)
    (aspect_ratio image_size : option string) : json :=
  JDict ([ ("model", JStr model);
           ("messages", JList [JDict [("role", JStr "user"); ("content", JList content)]]);
           ("modalities", JList [JStr "image"; JStr "text"]) ]
         ++ (if opt_truthy aspect_ratio || opt_truthy image_size
             then [("image_config", JDict (image_config aspect_ratio image_size))]
             else [])).

(** [repr] of the keys of a dict, for keys free of quotes and escapes. *)
Definition repr_keys (d : list (string * json)) : string :=
  "dict_keys([" +:+ PyStr.join ", " (map (λ k, "'" +:+ k +:+ "'") (keys d)) +:+ "])".

(** The [for part in message["content"]] loop. *)
Fixpoint scan_content (parts : list json) (fallback : result json) : result json :=
  match parts with
  | [] => fallback
  | part :: rest =>
      ty ← py_get part "type";
      if eq_str ty "image_url" then
        image_url ← getitem part "image_url";
        getitem image_url "url"
      else scan_content rest fallback
  end.

(** The image of a decoded response message. *)
Definition extract_image (message : json) : result json :=
  has_images ← py_in "images" message;
  images ← (if has_images then getitem message "images" else Ok JNull);
  if has_images && truthy images then
    img ← getidx images 0;
    if is_dict img then
      has_url ← py_in "image_url" img;
      image_url ← (if has_url then getitem img "image_url" else Ok JNull);
      if has_url && is_dict image_url then getitem image_url "url"
      else
        url ← py_get img "url";
        b64_json ← py_get img "b64_json";
        data ← py_get img "data";
        Ok (py_or (py_or url b64_json) data)
    else Ok img
  else
    content ← py_get message "content";
    let no_image :=
      Raise (Exn ValueError
        ("No image in response. Message keys: " +:+
         match message with JDict d => repr_keys d | _ => "" end)) in
    match content with
    | JList parts => scan_content parts no_image
    | _ => no_image
    end.

(** The part of the message content that carries the input image. *)
Definition image_content (input_image : json) : M (list json) :=
  if truthy input_image then
    '(img_data, mime_type) ← image_to_base64 input_image;
    mret [JDict [("type", JStr "image_url");
                 ("image_url",
                  JDict [("url", JStr ("data:" +:+ mime_type +:+ ";base64," +:+ img_data))])]]
  else mret [].

(** The body of the [try] in the retry loop. *)
Definition openrouter_send (payload : json) : M response :=
  response ← post "https://openrouter.ai/api/v1/chat/completions" (JsonBody payload);
  raise_for_status response;;
  mret response.

Definition generate_openrouter (prompt model : string) (input_image : json)
    (aspect_ratio image_size : option string) : M json :=
  import_requests;;
  api_key ← require_key (OPENROUTER_API_KEY env) "OPENROUTER_API_KEY";
  image_part ← image_content input_image;
  let content := image_part ++ [JDict [("type", JStr "text"); ("text", JStr prompt)]] in
  let payload := openrouter_payload model content aspect_ratio image_size in
  response ← retry_loop (openrouter_send payload);
  result ← response_json response;
  message ← lift (choices ← getitem result "choices";
                  choice ← getidx choices 0;
                  getitem choice "message");
  lift (extract_image message).

(** *** Image-API adapter (OpenAI) *)

(** The body of the [try] in the retry loop: the edit endpoint opens the
    input image first. *)
Definition openai_send (prompt model : string) (input_image : json)
    (size quality output_format background : string) : M response :=
  response ←
    (if truthy input_image then
       path ← as_path input_image;
       read_b64 path;;
       post "https://api.openai.com/v1/images/edits"
         (Multipart path [("model", model); ("prompt", prompt); ("size", size)])
     else
       post "https://api.openai.com/v1/images/generations"
         (JsonBody (JDict [ ("model", JStr model); ("prompt", JStr prompt);
                            ("size", JStr size); ("quality", JStr quality);
                            ("output_format", JStr output_format);
                            ("background", JStr background); ("n", JNum 1) ])));
  raise_for_status response;;
  mret response.

Definition generate_openai (prompt model : string) (input_image : json)
    (size quality output_format background : string) : M json :=
  import_requests;;
  api_key ← require_key (OPENAI_API_KEY env) "OPENAI_API_KEY";
  response ← retry_loop
    (openai_send prompt model input_image size quality output_format background);
  result ← response_json response;
  lift (data ← getitem result "data";
        first ← getidx data 0;
        getitem first "b64_json").

(** *** Orchestrator *)

(** Lines 322-329 of [generate]: the alias to use, or the error for an
    alias that is not in [MODELS]. *)
Definition resolve_model (prompt : string) (model_alias image_size : option string)
    (transparent fast : bool) : M string :=
  let model_alias :=
    match model_alias with
    | None => select_model prompt transparent (bool_decide (image_size = Some "4K")) fast false
    | Some a =>
        if String.eqb a "auto"
        then select_model prompt transparent (bool_decide (image_size = Some "4K")) fast false
        else a
    end in
  match assoc model_alias MODELS with
  | Some _ => mret model_alias
  | None =>
      let available := PyStr.join ", " (keys MODELS) in
      raise ValueError ("Unknown model '" +:+ model_alias +:+ "'. Available: " +:+ available)
  end.

(** The output directory and the session as updated in memory. *)
Definition resolve_output_dir (output_dir : option string)
    (session : gmap string json) : M (string * gmap string json) :=
  if opt_truthy output_dir then
    let out_path := resolve env (default "" output_dir) in
    mret (out_path, <["output_dir" := JStr out_path]> session)
  else if truthy (session_get session "output_dir") then
    out_path ← as_path (session_get session "output_dir");
    mret (out_path, session)
  else
    let out_path := PyPath.joinpath (cwd env) "generated-images" in
    mret (out_path, <["output_dir" := JStr out_path]> session).

(** The input image handed to the adapter. *)
Definition resolve_input_image (input_image : option string)
    (session : gmap string json) : json :=
  match input_image with
  | None =>
      if truthy (session_get session "current_image")
      then session_get session "current_image"
      else JNull
  | Some s => JStr s
  end.

(** [session["history"].append(record)] *)
Definition append_history (record : json) (session : gmap string json)
    : M (gmap string json) :=
  match session !! "history" with
  | Some (JList h) => mret (<["history" := JList (h ++ [record])]> session)
  | Some _ => raise AttributeError "object has no attribute 'append'"
  | None => raise KeyError "history"
  end.

Definition generate (prompt : string) (model_alias input_image output_dir
    aspect_ratio image_size : option string) (size : string)
    (transparent fast : bool) : M string :=
  session ← load_session;
  model_alias ← resolve_model prompt model_alias image_size transparent fast;
  let model := default "" (assoc model_alias MODELS) in
  let is_openai := PyStr.startswith "gpt-" model_alias in
  '(out_path, session) ← resolve_output_dir output_dir session;
  let input_image := resolve_input_image input_image session in
  base64_data ←
    (if is_openai
     then generate_openai prompt model input_image size "auto" "png" "auto"
     else generate_openrouter prompt model input_image aspect_ratio image_size);
  saved_path ← save_image base64_data out_path "gen";
  let session := <["current_image" := JStr saved_path]> session in
  session ← append_history
    (JDict [ ("prompt", JStr prompt); ("model", JStr model_alias);
             ("input", input_image); ("output", JStr saved_path);
             ("timestamp", JStr (now_iso env)) ]) session;
  save_session session;;
  mret saved_path.

(** *** Commands *)

Inductive command : Type :=
| CmdGenerate (prompt model : string) (output aspect_ratio image_size : option string)
    (size : string) (transparent fast : bool)
| CmdEdit (prompt : string) (input : option string) (model : string)
    (output : option string) (transparent fast : bool)
| CmdClear
| CmdSetDir (directory : string).

(** [args.model if args.model != "auto" else None] *)
Definition model_arg (model : string) : option string :=
  if String.eqb model "auto" then None else Some model.

Definition run_command (cmd : command) : M unit :=
  match cmd with
  | CmdGenerate prompt model output aspect_ratio image_size size transparent fast =>
      generate prompt (model_arg model) None output aspect_ratio image_size
        size transparent fast;;
      mret ()
  | CmdEdit prompt input model output transparent fast =>
      generate prompt (model_arg model) input output None None
        "auto" transparent fast;;
      mret ()
  | CmdClear => clear_session
  | CmdSetDir directory =>
      session ← load_session;
      let session := <["output_dir" := JStr (resolve env directory)]> session in
      save_session session
  end.

(** [main] on the parsed arguments: the exit status and the world left
    behind.  The [status] command and the help text only print. *)
Definition main (cmd : command) (w : World) : nat * World :=
  match run_command cmd w with
  | (Ok _, w') => (0, w')
  | (Raise _, w') => (1, w')
  end.

End Script.

(** * Vocabulary of the properties *)

(** The prompt mentions one of the keywords, in any mix of upper and
    lower case. *)
Definition mentions (kws : list string) (prompt : string) : Prop :=
  ∃ kw pre mid post,
    kw ∈ kws ∧ prompt = pre +:+ mid +:+ post ∧ PyStr.lower mid = PyStr.lower kw.

(** The exception a request ends with, when it fails in the way the loop
    retries: [requests.post] raises a [RequestException], or the status
    makes [raise_for_status] raise one. *)
Definition failure (o : outcome) : option exn :=
  match o with
  | PostRaises e => if is_RequestException e then Some e else None
  | PostReturns r =>
      if (400 <=? status_code r) && (status_code r <? 600)
      then Some (Exn RequestException "HTTPError") else None
  end.

(** The input image is absent, or is the path of a file that exists. *)
Definition input_ready (w : World) (input_image : json) : Prop :=
  truthy input_image = false ∨ ∃ p, input_image = JStr p ∧ truthy (JStr p) = true ∧ p ∈ fs w.

(** The request the image API adapter sends. *)
Definition openai_request (prompt model : string) (input_image : json)
    (size quality output_format background : string) : string * request :=
  match input_image with
  | JStr path =>
      if PyStr.nonempty path
      then ("https://api.openai.com/v1/images/edits",
            Multipart path [("model", model); ("prompt", prompt); ("size", size)])
      else ("https://api.openai.com/v1/images/generations",
            JsonBody (JDict [ ("model", JStr model); ("prompt", JStr prompt);
                              ("size", JStr size); ("quality", JStr quality);
                              ("output_format", JStr output_format);
                              ("background", JStr background); ("n", JNum 1) ]))
  | _ => ("https://api.openai.com/v1/images/generations",
          JsonBody (JDict [ ("model", JStr model); ("prompt", JStr prompt);
                            ("size", JStr size); ("quality", JStr quality);
                            ("output_format", JStr output_format);
                            ("background", JStr background); ("n", JNum 1) ]))
  end.

(** A part of a content list that is not an inline image. *)
Definition no_image_part (part : json) : Prop :=
  ∃ d, part = JDict d ∧ eq_str (default JNull (assoc "type" d)) "image_url" = false.

(** The world after three requests to [url] with sleeps of 1 and 2 seconds
    in between. *)
Definition exhausted (url : string) (req : request) (w : World) : World :=
  {| session_file := session_file w; fs := fs w; posts := posts w + 3;
     trace := trace w ++ [EvPost url req; EvSleep 1; EvPost url req;
                          EvSleep 2; EvPost url req] |}.

(** The world after a file has been created. *)
Definition with_file (path : string) (w : World) : World :=
  {| session_file := session_file w; fs := {[path]} ∪ fs w;
     posts := posts w; trace := trace w |}.

(** [m] does not write the session file. *)
Class KeepsSession {A} (m : M A) : Prop :=
  keeps_session : ∀ w r w', m w = (r, w') → session_file w' = session_file w.

(** [m] does not change the world at all. *)
Class Steady {A} (m : M A) : Prop :=
  steady : ∀ w r w', m w = (r, w') → w' = w.

(** [m], when it raises, has not written the session file. *)
Class KeepsOnRaise {A} (m : M A) : Prop :=
  keeps_on_raise : ∀ w e w', m w = (Raise e, w') → session_file w' = session_file w.

(** ** Scenarios *)

(** A project directory with both keys set, whose network refuses every
    connection; the n-th refusal carries the number n. *)
Definition env_down : Env :=
  {| requests_installed := true;
     OPENROUTER_API_KEY := Some "sk-or-test";
     OPENAI_API_KEY := Some "sk-test";
     cwd := "/proj";
     resolve := λ p, p;
     now_stamp := "20250101_120000";
     now_iso := "2025-01-01T12:00:00";
     file_b64 := λ _, "aGVsbG8=";
     b64_valid := λ _, true;
     glob_special := λ _ _ _, false;
     net := λ n, PostRaises (Exn RequestException ("connection refused #" +:+ pretty n)) |}.

(** The same directory with a network that answers [body] to every
    request. *)
Definition env_up (body : json) : Env :=
  {| requests_installed := true;
     OPENROUTER_API_KEY := Some "sk-or-test";
     OPENAI_API_KEY := Some "sk-test";
     cwd := "/proj";
     resolve := λ p, p;
     now_stamp := "20250101_120000";
     now_iso := "2025-01-01T12:00:00";
     file_b64 := λ _, "aGVsbG8=";
     b64_valid := λ _, true;
     glob_special := λ _ _ _, false;
     net := λ _, PostReturns (Response 200 (Some body)) |}.

(** A fresh project: no session file, no files, nothing sent. *)
Definition world0 : World :=
  {| session_file := None; fs := ∅; posts := 0; trace := [] |}.

(** An image API response that carries one image. *)
Definition body_image : json :=
  JDict [("data", JList [JDict [("b64_json", JStr "aGVsbG8=")]])].

(** A chat message whose "images" entry is an object of an unknown shape. *)
Definition message_unknown_shape : json :=
  JDict [ ("role", JStr "assistant");
          ("content", JStr "Here is your image.");
          ("images", JList [JDict [("type", JStr "image_url")]]) ].

Definition body_unknown_shape : json :=
  JDict [("choices", JList [JDict [("message", message_unknown_shape)]])].

(** The project of [env_down] with a base64 decoder that rejects every
    payload. *)
Definition env_bad_base64 : Env :=
  {| requests_installed := true;
     OPENROUTER_API_KEY := Some "sk-or-test";
     OPENAI_API_KEY := Some "sk-test";
     cwd := "/proj";
     resolve := λ p, p;
     now_stamp := "20250101_120000";
     now_iso := "2025-01-01T12:00:00";
     file_b64 := λ _, "aGVsbG8=";
     b64_valid := λ _, false;
     glob_special := λ _ _ _, false;
     net := λ _, PostReturns (Response 200 (Some body_image)) |}.

(** The response a request ends with, when the loop takes it: its status
    is not an error status. *)
Definition success (o : outcome) : option response :=
  match o with
  | PostRaises _ => None
  | PostReturns r =>
      if (400 <=? status_code r) && (status_code r <? 600) then None else Some r
  end.

(** The project of [env_down] with neither API key set. *)
Definition env_no_keys : Env :=
  {| requests_installed := true;
     OPENROUTER_API_KEY := None;
     OPENAI_API_KEY := Some "";
     cwd := "/proj";
     resolve := λ p, p;
     now_stamp := "20250101_120000";
     now_iso := "2025-01-01T12:00:00";
     file_b64 := λ _, "aGVsbG8=";
     b64_valid := λ _, true;
     glob_special := λ _ _ _, false;
     net := λ _, PostReturns (Response 200 (Some body_image)) |}.

(** The project of [env_down] with a network that refuses the first two
    connections and then answers [body]. *)
Definition env_flaky (body : json) : Env :=
  {| requests_installed := true;
     OPENROUTER_API_KEY := Some "sk-or-test";
     OPENAI_API_KEY := Some "sk-test";
     cwd := "/proj";
     resolve := λ p, p;
     now_stamp := "20250101_120000";
     now_iso := "2025-01-01T12:00:00";
     file_b64 := λ _, "aGVsbG8=";
     b64_valid := λ _, true;
     glob_special := λ _ _ _, false;
     net := λ n, if n <? 2
                 then PostRaises (Exn RequestException ("connection refused #" +:+ pretty n))
                 else PostReturns (Response 200 (Some body)) |}.

(** [m] sends at most [n] requests. *)
Class SendsAtMost (n : nat) {A} (m : M A) : Prop :=
  sends_at_most : ∀ w r w', m w = (r, w') → posts w ≤ posts w' ≤ posts w + n.

(** [m] only adds events to the trace, all of them satisfying [P]. *)
Class Logs (P : event → Prop) {A} (m : M A) : Prop :=
  logs : ∀ w r w', m w = (r, w') → ∃ evs, trace w' = trace w ++ evs ∧ Forall P evs.

(** An event of a run against one provider: a request to that provider's
    endpoints, or one of the two backoff sleeps. *)
Definition provider_event (openai : bool) (ev : event) : Prop :=
  match ev with
  | EvPost url _ =>
      if openai
      then url = "https://api.openai.com/v1/images/edits"
           ∨ url = "https://api.openai.com/v1/images/generations"
      else url = "https://openrouter.ai/api/v1/chat/completions"
  | EvSleep n => n = 1 ∨ n = 2
  end.

(** [env] with another value of [OPENROUTER_API_KEY]. *)
Definition with_openrouter_key (key : option string) (env : Env) : Env :=
  {| requests_installed := requests_installed env;
     OPENROUTER_API_KEY := key;
     OPENAI_API_KEY := OPENAI_API_KEY env;
     cwd := cwd env; resolve := resolve env;
     now_stamp := now_stamp env; now_iso := now_iso env;
     file_b64 := file_b64 env; b64_valid := b64_valid env;
     glob_special := glob_special env; net := net env |}.

(** [env] with another value of [OPENAI_API_KEY]. *)
Definition with_openai_key (key : option string) (env : Env) : Env :=
  {| requests_installed := requests_installed env;
     OPENROUTER_API_KEY := OPENROUTER_API_KEY env;
     OPENAI_API_KEY := key;
     cwd := cwd env; resolve := resolve env;
     now_stamp := now_stamp env; now_iso := now_iso env;
     file_b64 := file_b64 env; b64_valid := b64_valid env;
     glob_special := glob_special env; net := net env |}.

(** The history record of one generation. *)
Definition history_record (prompt alias : string) (input : json)
    (output timestamp : string) : json :=
  JDict [ ("prompt", JStr prompt); ("model", JStr alias); ("input", input);
          ("output", JStr output); ("timestamp", JStr timestamp) ].

(** A project whose session file has lost its "history" entry. *)
Definition world_no_history : World :=
  {| session_file := Some (<["current_image" := JNull]> (<["output_dir" := JNull]> ∅));
     fs := ∅; posts := 0; trace := [] |}.

(** The project of [env_up body_image] run from the root directory. *)
Definition env_root : Env :=
  {| requests_installed := true;
     OPENROUTER_API_KEY := Some "sk-or-test";
     OPENAI_API_KEY := Some "sk-test";
     cwd := "/";
     resolve := λ p, p;
     now_stamp := "20250101_120000";
     now_iso := "2025-01-01T12:00:00";
     file_b64 := λ _, "aGVsbG8=";
     b64_valid := λ _, true;
     glob_special := λ _ _ _, false;
     net := λ _, PostReturns (Response 200 (Some body_image)) |}.

(** The project of [env_down] whose requests all fail in [requests.post]
    with an exception that is not a [RequestException]; the n-th failure
    carries the number n. *)
Definition env_broken : Env :=
  {| requests_installed := true;
     OPENROUTER_API_KEY := Some "sk-or-test";
     OPENAI_API_KEY := Some "sk-test";
     cwd := "/proj";
     resolve := λ p, p;
     now_stamp := "20250101_120000";
     now_iso := "2025-01-01T12:00:00";
     file_b64 := λ _, "aGVsbG8=";
     b64_valid := λ _, true;
     glob_special := λ _ _ _, false;
     net := λ n, PostRaises (Exn TypeError ("unexpected argument #" +:+ pretty n)) |}.

(** * Properties *)

(** ** Strings *)

Lemma lower_app (a b : string) :
  PyStr.lower (a +:+ b) = PyStr.lower a +:+ PyStr.lower b.
Proof.
  induction a as [|c a IH]; [reflexivity|].
  change (String c a +:+ b) with (String c (a +:+ b)).
  cbn [PyStr.lower]. rewrite IH. reflexivity.
Qed.

Lemma startswith_app (p s : string) : PyStr.startswith p (p +:+ s) = true.
Proof.
  induction p as [|c p IH]; [reflexivity|].
  change (String c p +:+ s) with (String c (p +:+ s)).
  cbn [PyStr.startswith]. rewrite Ascii.eqb_refl. exact IH.
Qed.

Lemma contains_here (kw s : string) :
  PyStr.startswith kw s = true → PyStr.contains kw s = true.
Proof. intros H. destruct s; cbn [PyStr.contains]; rewrite H; reflexivity. Qed.

Lemma contains_app (kw pre post : string) :
  PyStr.contains kw (pre +:+ kw +:+ post) = true.
Proof.
  induction pre as [|c pre IH].
  - change (PyStr.contains kw (kw +:+ post) = true).
    apply contains_here, startswith_app.
  - change (String c pre +:+ kw +:+ post) with (String c (pre +:+ kw +:+ post)).
    cbn [PyStr.contains]. rewrite IH. apply orb_true_r.
Qed.

Lemma any_in_intro (kws : list string) (kw s : string) :
  kw ∈ kws → PyStr.contains kw s = true → any_in kws s = true.
Proof.
  intros Hin Hc. unfold any_in. apply existsb_exists.
  exists kw. split; [by apply list_elem_of_In | exact Hc].
Qed.

(** ** Model selection *)

Lemma transparency_keywords_lower (kw : string) :
  kw ∈ transparency_keywords → PyStr.lower kw = kw.
Proof.
  unfold transparency_keywords. rewrite !elem_of_cons, elem_of_nil.
  intros H. repeat destruct H as [-> | H]; try reflexivity. destruct H.
Qed.

Lemma mentions_any_in (prompt : string) :
  mentions transparency_keywords prompt →
  any_in transparency_keywords (PyStr.lower prompt) = true.
Proof.
  intros (kw & pre & mid & post & Hin & -> & Hmid).
  apply (any_in_intro _ kw); [exact Hin|].
  rewrite !lower_app, Hmid, (transparency_keywords_lower kw Hin).
  apply contains_app.
Qed.

(** C2: when the transparent flag is set or the prompt mentions a
    transparency keyword in any letter case, [select_model] returns
    "gpt-image-1.5" whatever the other flags and keywords are; so it does
    for a prompt with both "transparent" and "sketch", and for the flag
    alone on a prompt without keyword. *)
Theorem select_model_transparency_first :
  (∀ prompt transparent high_res fast text_heavy,
      transparent = true ∨ mentions transparency_keywords prompt →
      select_model prompt transparent high_res fast text_heavy = "gpt-image-1.5")
  ∧ (∀ high_res fast text_heavy,
      select_model "a Transparent sketch" false high_res fast text_heavy
      = "gpt-image-1.5")
  ∧ (∀ high_res fast text_heavy,
      any_in transparency_keywords (PyStr.lower "a red circle") = false
      ∧ select_model "a red circle" true high_res fast text_heavy = "gpt-image-1.5").
Proof.
  split; [|split].
  - intros prompt transparent high_res fast text_heavy [-> | Hm];
      unfold select_model.
    + reflexivity.
    + rewrite (mentions_any_in prompt Hm), orb_true_r. reflexivity.
  - intros. reflexivity.
  - intros. split; reflexivity.
Qed.

Lemma select_model_transparency_first_witness :
  mentions transparency_keywords "Logo, NO Background, rough sketch"
  ∧ select_model "Logo, NO Background, rough sketch" false false true false
    = "gpt-image-1.5".
Proof.
  assert (Hm : mentions transparency_keywords "Logo, NO Background, rough sketch").
  { exists "no background", "Logo, ", "NO Background", ", rough sketch".
    split; [|split]; [|reflexivity|reflexivity].
    unfold transparency_keywords. rewrite !elem_of_cons. tauto. }
  split; [exact Hm|].
  apply (proj1 select_model_transparency_first). right. exact Hm.
Defined.

(** C9: whatever the prompt and the flags, [select_model] returns one of
    "gpt-image-1.5", "nano-banana" and "nano-banana-pro", each a key of
    [MODELS]; so resolving the model with no alias or with "auto" never
    raises the unknown-model error. *)
Theorem select_model_in_MODELS :
  ∀ prompt transparent high_res fast text_heavy,
    let alias := select_model prompt transparent high_res fast text_heavy in
    alias ∈ ["gpt-image-1.5"; "nano-banana"; "nano-banana-pro"]
    ∧ alias ∈ keys MODELS
    ∧ is_Some (assoc alias MODELS)
    ∧ ∀ image_size w,
        resolve_model prompt None image_size transparent fast w
        = (Ok (select_model prompt transparent
                 (bool_decide (image_size = Some "4K")) fast false), w)
        ∧ resolve_model prompt (Some "auto") image_size transparent fast w
          = (Ok (select_model prompt transparent
                   (bool_decide (image_size = Some "4K")) fast false), w).
Proof.
  assert (Hcases : ∀ prompt t h f x,
    select_model prompt t h f x = "gpt-image-1.5"
    ∨ select_model prompt t h f x = "nano-banana"
    ∨ select_model prompt t h f x = "nano-banana-pro").
  { intros. unfold select_model.
    repeat match goal with |- context [if ?b then _ else _] => destruct b end;
      tauto. }
  intros prompt transparent high_res fast text_heavy alias.
  repeat split.
  - subst alias. rewrite !elem_of_cons.
    destruct (Hcases prompt transparent high_res fast text_heavy) as [-> | [-> | ->]];
      tauto.
  - subst alias.
    destruct (Hcases prompt transparent high_res fast text_heavy) as [-> | [-> | ->]];
      cbn; rewrite !elem_of_cons; tauto.
  - subst alias.
    destruct (Hcases prompt transparent high_res fast text_heavy) as [-> | [-> | ->]];
      cbn; eauto.
  - unfold resolve_model.
    destruct (Hcases prompt transparent (bool_decide (image_size = Some "4K")) fast false)
      as [-> | [-> | ->]]; reflexivity.
  - unfold resolve_model. cbn [String.eqb].
    change (String.eqb "auto" "auto") with true. cbv iota.
    destruct (Hcases prompt transparent (bool_decide (image_size = Some "4K")) fast false)
      as [-> | [-> | ->]]; reflexivity.
Qed.

(** ** Retry loop *)

Ltac run :=
  unfold mbind, mret, M_mbind, M_mret, M_bind, M_ret, raise, reraise, lift,
    try_except, sleep, emit in *.

Lemma failure_is_request (o : outcome) (e : exn) :
  failure o = Some e → is_RequestException e = true.
Proof.
  destruct o as [e' | r]; cbn.
  - destruct (is_RequestException e') eqn:He; congruence.
  - destruct (_ && _); [intros [= <-]; reflexivity | discriminate].
Qed.

Lemma post_then_status_fails (env : Env) (url : string) (req : request)
    (w : World) (e : exn) :
  failure (net env (posts w)) = Some e →
  (response ← post env url req; raise_for_status response;; mret response) w
  = (Raise e, sent url req w).
Proof.
  intros Hf. run. unfold post, raise_for_status.
  destruct (net env (posts w)) as [e' | r]; cbn in Hf.
  - destruct (is_RequestException e'); congruence.
  - run. destruct (_ && _); [congruence | discriminate].
Qed.

Lemma openrouter_send_fails (env : Env) (payload : json) (w : World) (e : exn) :
  failure (net env (posts w)) = Some e →
  openrouter_send env payload w
  = (Raise e, sent "https://openrouter.ai/api/v1/chat/completions" (JsonBody payload) w).
Proof. apply post_then_status_fails. Qed.

Lemma openai_send_fails (env : Env) (prompt model : string) (input_image : json)
    (size quality output_format background : string) (w : World) (e : exn) :
  input_ready w input_image →
  failure (net env (posts w)) = Some e →
  openai_send env prompt model input_image size quality output_format background w
  = (Raise e,
     sent (openai_request prompt model input_image size quality output_format background).1
          (openai_request prompt model input_image size quality output_format background).2 w).
Proof.
  intros Hin Hf. unfold openai_send.
  destruct Hin as [Hfalse | (p & -> & Ht & Hp)].
  - rewrite Hfalse.
    assert (Hreq : openai_request prompt model input_image size quality output_format background
              = ("https://api.openai.com/v1/images/generations",
                 JsonBody (JDict [ ("model", JStr model); ("prompt", JStr prompt);
                            ("size", JStr size); ("quality", JStr quality);
                            ("output_format", JStr output_format);
                            ("background", JStr background); ("n", JNum 1) ]))).
    { unfold openai_request. destruct input_image as [| | |s| |]; try reflexivity.
      cbn in Hfalse. rewrite Hfalse. reflexivity. }
    rewrite Hreq. cbn [fst snd]. by apply post_then_status_fails.
  - rewrite Ht. unfold openai_request. cbn in Ht. rewrite Ht. cbn [fst snd].
    pose proof (post_then_status_fails env "https://api.openai.com/v1/images/edits"
      (Multipart p [("model", model); ("prompt", prompt); ("size", size)]) w e Hf) as Hp'.
    run. unfold as_path, read_b64 in *. run.
    destruct (decide (p ∈ fs w)); [exact Hp' | contradiction].
Qed.

(** One turn of the loop on a failed attempt. *)
Lemma retry_attempts_raise (send : M response) (attempt : nat) (rest : list nat)
    (w w1 : World) (e : exn) :
  send w = (Raise e, w1) →
  retry_attempts send (attempt :: rest) w
  = if is_RequestException e then
      if attempt <? MAX_RETRIES - 1
      then retry_attempts send rest (logged (EvSleep (RETRY_BACKOFF_BASE ^ attempt)) w1)
      else (Raise e, w1)
    else (Raise e, w1).
Proof.
  intros Hs. cbn [retry_attempts]. run. rewrite Hs.
  destruct (is_RequestException e); [|reflexivity].
  destruct (attempt <? MAX_RETRIES - 1); reflexivity.
Qed.

Lemma retry_attempts_ok (send : M response) (attempt : nat) (rest : list nat)
    (w w1 : World) (r : response) :
  send w = (Ok r, w1) → retry_attempts send (attempt :: rest) w = (Ok r, w1).
Proof. intros Hs. cbn [retry_attempts]. run. rewrite Hs. reflexivity. Qed.

(** Three failed attempts in a row: two sleeps, then the third error. *)
Lemma retry_loop_exhausted (send : M response) (w w1 w2 w3 : World) (e0 e1 e2 : exn) :
  send w = (Raise e0, w1) → is_RequestException e0 = true →
  send (logged (EvSleep 1) w1) = (Raise e1, w2) → is_RequestException e1 = true →
  send (logged (EvSleep 2) w2) = (Raise e2, w3) → is_RequestException e2 = true →
  retry_loop send w = (Raise e2, w3).
Proof.
  intros H0 R0 H1 R1 H2 R2. unfold retry_loop. cbn [seq MAX_RETRIES].
  rewrite (retry_attempts_raise _ _ _ _ _ _ H0), R0. cbn [Nat.ltb Nat.leb Nat.sub MAX_RETRIES].
  change (RETRY_BACKOFF_BASE ^ 0) with 1.
  rewrite (retry_attempts_raise _ _ _ _ _ _ H1), R1. cbn [Nat.ltb Nat.leb Nat.sub MAX_RETRIES].
  change (RETRY_BACKOFF_BASE ^ 1) with 2.
  rewrite (retry_attempts_raise _ _ _ _ _ _ H2), R2. reflexivity.
Qed.

Lemma three_rounds (url : string) (req : request) (w : World) :
  sent url req (logged (EvSleep 2) (sent url req (logged (EvSleep 1) (sent url req w))))
  = exhausted url req w.
Proof.
  unfold exhausted, sent, logged. cbn. f_equal; [lia|].
  rewrite <- !app_assoc. reflexivity.
Qed.

Lemma retry_loop_post_exhausted (env : Env) (send : M response)
    (url : string) (req : request) (w : World) (e0 e1 e2 : exn) :
  (∀ w' e, fs w' = fs w → failure (net env (posts w')) = Some e →
           send w' = (Raise e, sent url req w')) →
  failure (net env (posts w)) = Some e0 →
  failure (net env (posts w + 1)) = Some e1 →
  failure (net env (posts w + 2)) = Some e2 →
  retry_loop send w = (Raise e2, exhausted url req w).
Proof.
  intros Hsend F0 F1 F2. rewrite <- three_rounds.
  replace (posts w + 1) with (S (posts w)) in F1 by lia.
  replace (posts w + 2) with (S (S (posts w))) in F2 by lia.
  eapply retry_loop_exhausted.
  - apply Hsend; [reflexivity | exact F0].
  - eapply failure_is_request, F0.
  - apply Hsend; [reflexivity | exact F1].
  - eapply failure_is_request, F1.
  - apply Hsend; [reflexivity | exact F2].
  - eapply failure_is_request, F2.
Qed.

Lemma require_key_set (key name : string) (w : World) :
  PyStr.nonempty key = true → require_key (Some key) name w = (Ok key, w).
Proof. intros H. unfold require_key. rewrite H. reflexivity. Qed.

Lemma image_content_ready (env : Env) (input_image : json) (w : World) :
  input_ready w input_image →
  ∃ part, image_content env input_image w = (Ok part, w).
Proof.
  unfold image_content.
  intros [-> | (p & -> & Ht & Hp)]; [by eexists|].
  rewrite Ht. unfold image_to_base64, as_path, read_b64. run.
  destruct (decide (p ∈ fs w)); [by eexists | contradiction].
Qed.

Lemma input_ready_fs (w w' : World) (input_image : json) :
  fs w' = fs w → input_ready w input_image → input_ready w' input_image.
Proof.
  intros Hfs [H | (p & ? & ? & ?)]; [by left | right].
  exists p. rewrite Hfs. auto.
Qed.

(** C3, as stated, fails: a call that fails on every attempt is attempted
    again only when the failure is a [RequestException].  With a network
    on which every request fails with another exception, the chat adapter
    makes one attempt, sleeps not at all and raises the first error; so
    does the image adapter when the image to edit is missing, whose [open]
    fails on every attempt. *)
Lemma other_failure_attempted_once :
  let chat := generate_openrouter env_broken "a red circle"
                "google/gemini-3-pro-image-preview" JNull None None world0 in
  let image := generate_openai env_down "make it blue" "gpt-image-1.5" (JStr "gone.png")
                 "auto" "auto" "png" "auto" world0 in
  (∀ n, net env_broken n = PostRaises (Exn TypeError ("unexpected argument #" +:+ pretty n)))
  ∧ chat.1 = Raise (Exn TypeError "unexpected argument #0")
  ∧ posts chat.2 = 1
  ∧ length (trace chat.2) = 1
  ∧ (¬ ∃ e url req, chat = (Raise e, exhausted url req world0))
  ∧ image = (Raise (Exn FileNotFoundError "gone.png"), world0)
  ∧ ¬ ∃ e url req, image = (Raise e, exhausted url req world0).
Proof.
  intros chat image.
  assert (Hchat : posts chat.2 = 1) by (vm_compute; reflexivity).
  assert (Himage : image = (Raise (Exn FileNotFoundError "gone.png"), world0))
    by (vm_compute; reflexivity).
  split; [reflexivity|].
  split; [vm_compute; reflexivity|].
  split; [exact Hchat|].
  split; [vm_compute; reflexivity|].
  split; [|split; [exact Himage|]].
  - intros (e & url & req & H). rewrite H in Hchat. cbn in Hchat. discriminate.
  - intros (e & url & req & H). rewrite Himage in H.
    apply (f_equal (λ x, posts x.2)) in H. cbn in H. discriminate.
Qed.

(** C3 (amended): when each of the three attempts fails the way the loop
    catches (the request raises a [RequestException] or gets an error
    status), both adapters send exactly three requests, sleep 1 second
    after the first failure and 2 seconds after the second, and raise the
    error of the third attempt. *)
Theorem retry_exhausted_raises_last :
  ∀ env w e0 e1 e2 prompt model input_image,
    requests_installed env = true →
    input_ready w input_image →
    failure (net env (posts w)) = Some e0 →
    failure (net env (posts w + 1)) = Some e1 →
    failure (net env (posts w + 2)) = Some e2 →
    (∀ key aspect_ratio image_size,
        OPENROUTER_API_KEY env = Some key → PyStr.nonempty key = true →
        ∃ url req,
          generate_openrouter env prompt model input_image aspect_ratio image_size w
          = (Raise e2, exhausted url req w))
    ∧ (∀ key size quality output_format background,
        OPENAI_API_KEY env = Some key → PyStr.nonempty key = true →
        ∃ url req,
          generate_openai env prompt model input_image size quality
            output_format background w
          = (Raise e2, exhausted url req w)).
Proof.
  intros env w e0 e1 e2 prompt model input_image Hreq Hin F0 F1 F2. split.
  - intros key aspect_ratio image_size Hkey Hne.
    exists "https://openrouter.ai/api/v1/chat/completions".
    destruct (image_content_ready env input_image w Hin) as [part Hpart].
    unfold generate_openrouter, import_requests. rewrite Hreq, Hkey.
    run. rewrite (require_key_set key _ w Hne), Hpart.
    eexists. erewrite retry_loop_post_exhausted; [reflexivity | | eassumption..].
    intros w' e _. apply openrouter_send_fails.
  - intros key size quality output_format background Hkey Hne.
    unfold generate_openai, import_requests. rewrite Hreq, Hkey.
    run. rewrite (require_key_set key _ w Hne).
    do 2 eexists.
    erewrite (retry_loop_post_exhausted env _
      (openai_request prompt model input_image size quality output_format background).1
      (openai_request prompt model input_image size quality output_format background).2);
      [reflexivity | | eassumption..].
    intros w' e Hfs. apply openai_send_fails. by apply (input_ready_fs w).
Qed.

Lemma retry_exhausted_raises_last_witness :
  ∃ url req,
    generate_openai env_down "a red circle" "gpt-image-1.5" JNull
      "auto" "auto" "png" "auto" world0
    = (Raise (Exn RequestException "connection refused #2"), exhausted url req world0).
Proof.
  apply (proj2 (retry_exhausted_raises_last env_down world0
                  (Exn RequestException "connection refused #0")
                  (Exn RequestException "connection refused #1")
                  (Exn RequestException "connection refused #2")
                  "a red circle" "gpt-image-1.5" JNull
                  eq_refl (or_introl eq_refl) eq_refl eq_refl eq_refl)
           "sk-test" "auto" "auto" "png" "auto" eq_refl eq_refl).
Defined.

(** C6, as stated, fails: an exception raised in the [try] that is not a
    [RequestException] ends the loop at once.  Editing an image whose file
    is missing raises [FileNotFoundError] from [open] on the first
    attempt: no request is sent and no sleep made. *)
Lemma missing_input_not_retried :
  generate_openai env_down "make it blue" "gpt-image-1.5" (JStr "missing.png")
    "auto" "auto" "png" "auto" world0
  = (Raise (Exn FileNotFoundError "missing.png"), world0)
  ∧ ¬ ∃ e url req,
        generate_openai env_down "make it blue" "gpt-image-1.5" (JStr "missing.png")
          "auto" "auto" "png" "auto" world0
        = (Raise e, exhausted url req world0).
Proof.
  assert (Hrun : generate_openai env_down "make it blue" "gpt-image-1.5"
                   (JStr "missing.png") "auto" "auto" "png" "auto" world0
                 = (Raise (Exn FileNotFoundError "missing.png"), world0))
    by (vm_compute; reflexivity).
  split; [exact Hrun|].
  intros (e & url & req & H). rewrite Hrun in H.
  apply (f_equal (λ x, posts x.2)) in H. cbn in H. discriminate.
Qed.

(** C6 (amended): the loop retries an exception raised while sending
    exactly when it is a [RequestException]: then it sleeps
    [RETRY_BACKOFF_BASE ^ attempt] seconds and goes on, or re-raises it on
    the last attempt; an error status counts, since [raise_for_status]
    raises one; an exception of any other class propagates at once. *)
Theorem retry_only_request_exceptions :
  ∀ (send : M response) (attempt : nat) (rest : list nat) (w w1 : World) (e : exn),
    send w = (Raise e, w1) →
    (is_RequestException e = false →
       retry_attempts send (attempt :: rest) w = (Raise e, w1))
    ∧ (is_RequestException e = true → attempt < MAX_RETRIES - 1 →
       retry_attempts send (attempt :: rest) w
       = retry_attempts send rest (logged (EvSleep (RETRY_BACKOFF_BASE ^ attempt)) w1))
    ∧ (is_RequestException e = true → MAX_RETRIES - 1 ≤ attempt →
       retry_attempts send (attempt :: rest) w = (Raise e, w1))
    ∧ (∀ r w', 400 ≤ status_code r < 600 →
       ∃ e', raise_for_status r w' = (Raise e', w') ∧ is_RequestException e' = true).
Proof.
  intros send attempt rest w w1 e Hs.
  rewrite (retry_attempts_raise send attempt rest w w1 e Hs).
  repeat split.
  - intros ->. reflexivity.
  - intros -> Hlt. apply Nat.ltb_lt in Hlt. rewrite Hlt. reflexivity.
  - intros -> Hge. apply Nat.ltb_ge in Hge. rewrite Hge. reflexivity.
  - intros r w' [Hlo Hhi]. unfold raise_for_status.
    apply Nat.leb_le in Hlo. apply Nat.ltb_lt in Hhi. rewrite Hlo, Hhi.
    eexists. split; reflexivity.
Qed.

Lemma retry_only_request_exceptions_witness :
  retry_attempts (openrouter_send env_down JNull) [0; 1; 2] world0
  = retry_attempts (openrouter_send env_down JNull) [1; 2]
      (logged (EvSleep 1)
         (sent "https://openrouter.ai/api/v1/chat/completions" (JsonBody JNull) world0)).
Proof.
  apply (proj1 (proj2 (retry_only_request_exceptions
           (openrouter_send env_down JNull) 0 [1; 2] world0
           (sent "https://openrouter.ai/api/v1/chat/completions" (JsonBody JNull) world0)
           (Exn RequestException "connection refused #0") eq_refl)) eq_refl).
  unfold MAX_RETRIES. lia.
Defined.

(** ** What a computation leaves alone *)

#[global] Instance steady_keeps {A} (m : M A) : Steady m → KeepsSession m | 100.
Proof. intros H w r w' Hm. by rewrite (H w r w' Hm). Qed.

#[global] Instance steady_ret {A} (a : A) : Steady (mret a).
Proof. intros w r w' [= _ <-]. reflexivity. Qed.

#[global] Instance steady_raise {A} cls msg : Steady (@raise A cls msg).
Proof. intros w r w' [= _ <-]. reflexivity. Qed.

#[global] Instance steady_reraise {A} e : Steady (@reraise A e).
Proof. intros w r w' [= _ <-]. reflexivity. Qed.

#[global] Instance steady_lift {A} (x : result A) : Steady (lift x).
Proof. intros w r w' [= _ <-]. reflexivity. Qed.

#[global] Instance steady_bind {A B} (m : M A) (f : A → M B) :
  Steady m → (∀ a, Steady (f a)) → Steady (m ≫= f).
Proof.
  intros Hm Hf w r w' H. run.
  destruct (m w) as [[a | e] w1] eqn:E; pose proof (Hm _ _ _ E) as ->.
  - exact (Hf a _ _ _ H).
  - by injection H as _ <-.
Qed.

#[global] Instance steady_if {A} (b : bool) (m1 m2 : M A) :
  Steady m1 → Steady m2 → Steady (if b then m1 else m2).
Proof. by destruct b. Qed.

#[global] Instance keeps_bind {A B} (m : M A) (f : A → M B) :
  KeepsSession m → (∀ a, KeepsSession (f a)) → KeepsSession (m ≫= f).
Proof.
  intros Hm Hf w r w' H. run.
  destruct (m w) as [[a | e] w1] eqn:E; pose proof (Hm _ _ _ E) as <-.
  - exact (Hf a _ _ _ H).
  - by injection H as _ <-.
Qed.

#[global] Instance keeps_if {A} (b : bool) (m1 m2 : M A) :
  KeepsSession m1 → KeepsSession m2 → KeepsSession (if b then m1 else m2).
Proof. by destruct b. Qed.

#[global] Instance keeps_try {A} (m : M A) (h : exn → M A) :
  KeepsSession m → (∀ e, KeepsSession (h e)) → KeepsSession (try_except m h).
Proof.
  intros Hm Hh w r w' H. unfold try_except in H.
  destruct (m w) as [[a | e] w1] eqn:E; pose proof (Hm _ _ _ E) as <-.
  - by injection H as _ <-.
  - exact (Hh e _ _ _ H).
Qed.

#[global] Instance keeps_emit ev : KeepsSession (emit ev).
Proof. intros w r w' [= _ <-]. reflexivity. Qed.

#[global] Instance keeps_sleep n : KeepsSession (sleep n).
Proof. unfold sleep. apply _. Qed.

#[global] Instance keeps_post env url req : KeepsSession (post env url req).
Proof.
  intros w r w' H. unfold post in H.
  destruct (net env (posts w)); injection H as _ <-; reflexivity.
Qed.

#[global] Instance steady_read_b64 env path : Steady (read_b64 env path).
Proof.
  intros w r w' H. unfold read_b64 in H.
  destruct (decide _); by injection H as _ <-.
Qed.

#[global] Instance keeps_create_file path : KeepsSession (create_file path).
Proof. intros w r w' [= _ <-]. reflexivity. Qed.

#[global] Instance steady_glob env dir pfx sfx : Steady (glob env dir pfx sfx).
Proof. intros w r w' [= _ <-]. reflexivity. Qed.

#[global] Instance steady_load_session : Steady load_session.
Proof.
  intros w r w' H. unfold load_session in H.
  destruct (session_file w); by injection H as _ <-.
Qed.

#[global] Instance steady_as_path v : Steady (as_path v).
Proof. destruct v; apply _. Qed.

#[global] Instance steady_raise_for_status r : Steady (raise_for_status r).
Proof. unfold raise_for_status. apply _. Qed.

#[global] Instance steady_response_json r : Steady (response_json r).
Proof. unfold response_json. destruct (body r); apply _. Qed.

#[global] Instance steady_import_requests env : Steady (import_requests env).
Proof. unfold import_requests. apply _. Qed.

#[global] Instance steady_require_key key name : Steady (require_key key name).
Proof. unfold require_key. destruct key; apply _. Qed.

#[global] Instance steady_image_to_base64 env v : Steady (image_to_base64 env v).
Proof. unfold image_to_base64. apply _. Qed.

#[global] Instance steady_image_content env v : Steady (image_content env v).
Proof.
  unfold image_content. apply steady_if; [|apply _].
  apply steady_bind; [apply _ | intros [d m]; apply _].
Qed.

#[global] Instance keeps_retry_attempts send attempts :
  KeepsSession send → KeepsSession (retry_attempts send attempts).
Proof.
  intros Hs. induction attempts as [|a rest IH]; cbn [retry_attempts]; [apply _|].
  apply keeps_try; [exact Hs | intros e]. apply _.
Qed.

#[global] Instance keeps_openrouter_send env payload :
  KeepsSession (openrouter_send env payload).
Proof. unfold openrouter_send. apply _. Qed.

#[global] Instance keeps_openai_send env prompt model input size quality fmt bg :
  KeepsSession (openai_send env prompt model input size quality fmt bg).
Proof. unfold openai_send. apply _. Qed.

#[global] Instance keeps_generate_openrouter env prompt model input aspect_ratio image_size :
  KeepsSession (generate_openrouter env prompt model input aspect_ratio image_size).
Proof. unfold generate_openrouter, retry_loop. apply _. Qed.

#[global] Instance keeps_generate_openai env prompt model input size quality fmt bg :
  KeepsSession (generate_openai env prompt model input size quality fmt bg).
Proof. unfold generate_openai, retry_loop. apply _. Qed.

#[global] Instance keeps_save_image env data dir prefix :
  KeepsSession (save_image env data dir prefix).
Proof.
  unfold save_image. apply keeps_bind; [destruct data; apply _ | intros s].
  apply keeps_bind; [apply _ | intros [ext d]]. apply _.
Qed.

#[global] Instance steady_resolve_model prompt alias image_size transparent fast :
  Steady (resolve_model prompt alias image_size transparent fast).
Proof. unfold resolve_model. destruct (assoc _ MODELS); apply _. Qed.

#[global] Instance steady_resolve_output_dir env output_dir session :
  Steady (resolve_output_dir env output_dir session).
Proof. unfold resolve_output_dir. apply _. Qed.

#[global] Instance steady_append_history record session :
  Steady (append_history record session).
Proof.
  unfold append_history. destruct (session !! "history") as [[]|]; apply _.
Qed.

#[global] Instance keeps_keeps_on_raise {A} (m : M A) :
  KeepsSession m → KeepsOnRaise m | 100.
Proof. intros H w e w' Hm. exact (H _ _ _ Hm). Qed.

#[global] Instance keeps_on_raise_bind {A B} (m : M A) (f : A → M B) :
  KeepsSession m → (∀ a, KeepsOnRaise (f a)) → KeepsOnRaise (m ≫= f).
Proof.
  intros Hm Hf w e w' H. run.
  destruct (m w) as [[a | e1] w1] eqn:E; pose proof (Hm _ _ _ E) as <-.
  - exact (Hf a _ _ _ H).
  - by injection H as _ <-.
Qed.

#[global] Instance keeps_on_raise_save {A} session (a : A) :
  KeepsOnRaise (save_session session ≫= λ _, mret a).
Proof. intros w e w' H. discriminate H. Qed.

Lemma bind_Ok_inv {A B} (m : M A) (f : A → M B) (w w' : World) (b : B) :
  (m ≫= f) w = (Ok b, w') → ∃ a w1, m w = (Ok a, w1) ∧ f a w1 = (Ok b, w').
Proof.
  intros H. run. destruct (m w) as [[a | e] w1]; [eauto | discriminate].
Qed.

(** ** Orchestrator *)

Lemma assoc_None {A} (k : string) (d : list (string * A)) :
  k ∉ keys d → assoc k d = None.
Proof.
  induction d as [|[k' v] d IH]; [reflexivity|].
  cbn. rewrite not_elem_of_cons. intros [Hne Hd].
  destruct (String.eqb_spec k k'); [contradiction | auto].
Qed.

(** C4: [generate] with an explicit alias that is not a key of [MODELS]
    raises the error that names the alias and lists the keys of [MODELS],
    and leaves the world as it found it: no request sent, session file
    untouched. *)
Theorem generate_unknown_alias :
  ∀ env prompt alias input_image output_dir aspect_ratio image_size size
    transparent fast w,
    alias ≠ "auto" → alias ∉ keys MODELS →
    generate env prompt (Some alias) input_image output_dir aspect_ratio
      image_size size transparent fast w
    = (Raise (Exn ValueError
         ("Unknown model '" +:+ alias +:+
          "'. Available: nano-banana, nano-banana-pro, gpt-image, gpt-image-1.5, gpt-image-mini")),
       w).
Proof.
  intros env prompt alias input_image output_dir aspect_ratio image_size size
    transparent fast w Hauto Hnot.
  unfold generate, resolve_model, load_session. run.
  destruct (String.eqb_spec alias "auto") as [|_]; [contradiction|].
  rewrite (assoc_None alias MODELS Hnot).
  destruct (session_file w); reflexivity.
Qed.

Lemma generate_unknown_alias_witness :
  generate env_down "a red circle" (Some "foo") None None None None "auto"
    false false world0
  = (Raise (Exn ValueError
       "Unknown model 'foo'. Available: nano-banana, nano-banana-pro, gpt-image, gpt-image-1.5, gpt-image-mini"),
     world0).
Proof.
  apply (generate_unknown_alias env_down "a red circle" "foo" None None None None
           "auto" false false world0).
  - discriminate.
  - unfold keys, MODELS. cbn. rewrite !not_elem_of_cons.
    repeat split; try discriminate. apply not_elem_of_nil.
Defined.

Lemma resolve_output_dir_records (env : Env) (output_dir : option string)
    (session session' : gmap string json) (out : string) (w w1 : World) :
  resolve_output_dir env output_dir session w = (Ok (out, session'), w1) →
  session' !! "output_dir" = Some (JStr out).
Proof.
  unfold resolve_output_dir. destruct (opt_truthy output_dir).
  - intros [= <- <- _]. apply lookup_insert_eq.
  - destruct (truthy (session_get session "output_dir")) eqn:Ht.
    + unfold session_get in *.
      destruct (session !! "output_dir") as [[| | |s| |]|] eqn:Hl;
        cbn; try discriminate.
      intros [= <- <- _]. exact Hl.
    + intros [= <- <- _]. apply lookup_insert_eq.
Qed.

#[global] Instance generate_keeps_on_raise env prompt model_alias input_image output_dir
    aspect_ratio image_size size transparent fast :
  KeepsOnRaise (generate env prompt model_alias input_image output_dir
                  aspect_ratio image_size size transparent fast).
Proof.
  unfold generate.
  apply keeps_on_raise_bind; [apply _ | intros session].
  apply keeps_on_raise_bind; [apply _ | intros alias].
  apply keeps_on_raise_bind; [apply _ | intros [out_path session']].
  apply keeps_on_raise_bind; [apply _ | intros data].
  apply keeps_on_raise_bind; [apply _ | intros saved].
  apply keeps_on_raise_bind; [apply _ | intros session''].
  apply _.
Qed.

(** C5, as stated, fails: the resolved directory is written into the
    session dict in memory only.  With no session file and a network that
    is down, [generate] with an explicit output directory fails and no
    session file appears, so the next invocation loads the default
    session, whose output directory is unset. *)
Lemma output_dir_lost_on_failure :
  let run := generate env_down "a red circle" None None (Some "/tmp/out") None None
               "auto" false false world0 in
  run.1 = Raise (Exn RequestException "connection refused #2")
  ∧ session_file run.2 = None
  ∧ load_session run.2 = (Ok default_session, run.2)
  ∧ session_get default_session "output_dir" ≠ JStr "/tmp/out".
Proof.
  repeat split; [vm_compute; reflexivity..|].
  vm_compute. discriminate.
Qed.

(** C5 (amended): the resolved output directory (explicit flag, else the
    session's remembered directory, else the default subdirectory) is
    recorded in the session in memory; the session file is written only by
    a generation that succeeds, and then holds that directory; a
    generation that fails leaves the session file as it was. *)
Theorem output_dir_persisted_on_success :
  ∀ env prompt model_alias input_image output_dir aspect_ratio image_size size
    transparent fast w r w',
    generate env prompt model_alias input_image output_dir aspect_ratio
      image_size size transparent fast w = (r, w') →
    match r with
    | Raise _ => session_file w' = session_file w
    | Ok _ =>
        ∃ session out session' saved,
          load_session w = (Ok session, w)
          ∧ resolve_output_dir env output_dir session w = (Ok (out, session'), w)
          ∧ session' !! "output_dir" = Some (JStr out)
          ∧ session_file w' = Some saved
          ∧ saved !! "output_dir" = Some (JStr out)
    end.
Proof.
  intros env prompt model_alias input_image output_dir aspect_ratio image_size size
    transparent fast w r w' Hgen.
  destruct r as [path | e]; [|exact (keeps_on_raise _ _ _ Hgen)].
  unfold generate in Hgen.
  apply bind_Ok_inv in Hgen as (session & w1 & Hload & Hgen).
  pose proof (steady _ _ _ Hload) as ->.
  apply bind_Ok_inv in Hgen as (alias & w1 & Halias & Hgen).
  pose proof (steady _ _ _ Halias) as ->.
  apply bind_Ok_inv in Hgen as ([out session'] & w1 & Hout & Hgen).
  pose proof (steady _ _ _ Hout) as ->.
  apply bind_Ok_inv in Hgen as (data & w1 & _ & Hgen).
  apply bind_Ok_inv in Hgen as (saved_path & w2 & _ & Hgen).
  apply bind_Ok_inv in Hgen as (session'' & w3 & Hhist & Hgen).
  pose proof (resolve_output_dir_records _ _ _ _ _ _ _ Hout) as Hrec.
  exists session, out, session', session''.
  repeat split; try assumption.
  - injection Hgen as _ <-. reflexivity.
  - unfold append_history in Hhist.
    rewrite lookup_insert_ne in Hhist by discriminate.
    destruct (session' !! "history") as [[| | | |h|]|]; try discriminate.
    injection Hhist as <- _.
    rewrite lookup_insert_ne by discriminate.
    rewrite lookup_insert_ne by discriminate. exact Hrec.
Qed.

Lemma output_dir_persisted_on_success_witness :
  session_file
    (generate env_down "a red circle" None None (Some "/tmp/out") None None "auto"
       false false world0).2
  = session_file world0.
Proof.
  apply (output_dir_persisted_on_success env_down "a red circle" None None
           (Some "/tmp/out") None None "auto" false false world0
           (Raise (Exn RequestException "connection refused #2")) _).
  vm_compute. reflexivity.
Defined.

(** C10: [set-dir] exits with status 0 and writes a session that differs
    from the one it loaded in the key "output_dir" only: "current_image",
    "history" and every other key keep their values, whatever the session
    was. *)
Theorem set_dir_frame :
  ∀ env directory w,
    ∃ before after,
      load_session w = (Ok before, w)
      ∧ main env (CmdSetDir directory) w
        = (0, {| session_file := Some after; fs := fs w;
                 posts := posts w; trace := trace w |})
      ∧ after !! "output_dir" = Some (JStr (resolve env directory))
      ∧ after !! "current_image" = before !! "current_image"
      ∧ after !! "history" = before !! "history"
      ∧ ∀ k, k ≠ "output_dir" → after !! k = before !! k.
Proof.
  intros env directory w.
  exists (default default_session (session_file w)),
         (<["output_dir" := JStr (resolve env directory)]>
            (default default_session (session_file w))).
  unfold main, run_command, load_session, save_session. run.
  destruct (session_file w) as [session|]; cbn [default];
    (split; [reflexivity|]; split; [reflexivity|]);
    (split; [apply lookup_insert_eq|]);
    (split; [by apply lookup_insert_ne|]);
    (split; [by apply lookup_insert_ne|]);
    intros k Hk; by apply lookup_insert_ne.
Qed.

(** ** Saving images *)

Lemma append_assoc (a b c : string) : (a +:+ b) +:+ c = a +:+ (b +:+ c).
Proof.
  induction a as [|x a IH]; [reflexivity|].
  change ((String x a +:+ b) +:+ c) with (String x ((a +:+ b) +:+ c)).
  rewrite IH. reflexivity.
Qed.

Lemma length_append (a b : string) :
  String.length (a +:+ b) = String.length a + String.length b.
Proof.
  induction a as [|x a IH]; [reflexivity|].
  change (String x a +:+ b) with (String x (a +:+ b)).
  cbn [String.length]. rewrite IH. reflexivity.
Qed.

Lemma strip_prefix_app (p s : string) : PyPath.strip_prefix p (p +:+ s) = Some s.
Proof.
  induction p as [|x p IH]; [by destruct s|].
  change (String x p +:+ s) with (String x (p +:+ s)).
  cbn [PyPath.strip_prefix]. rewrite Ascii.eqb_refl. exact IH.
Qed.

Lemma endswith_app (p a : string) : PyStr.endswith p (a +:+ p) = true.
Proof.
  induction a as [|x a IH].
  - change ("" +:+ p) with p.
    destruct p; cbn [PyStr.endswith]; rewrite String.eqb_refl; reflexivity.
  - change (String x a +:+ p) with (String x (a +:+ p)).
    cbn [PyStr.endswith]. rewrite IH. apply orb_true_r.
Qed.

(** Looking for one character in a concatenation. *)
Lemma contains_char_app (c : ascii) (a b : string) :
  PyStr.contains (String c "") (a +:+ b)
  = PyStr.contains (String c "") a || PyStr.contains (String c "") b.
Proof.
  induction a as [|x a IH].
  - change ("" +:+ b) with b. reflexivity.
  - change (String x a +:+ b) with (String x (a +:+ b)).
    cbn [PyStr.contains PyStr.startswith]. rewrite IH.
    destruct (Ascii.eqb c x); [reflexivity|]. reflexivity.
Qed.

Lemma split_plain (name : string) :
  PyStr.contains "/" name = false → PyPath.split "/" name = [name].
Proof.
  induction name as [|a name IH]; [reflexivity|]. intros H.
  cbn [PyStr.contains PyStr.startswith] in H. cbn [PyPath.split].
  rewrite (Ascii.eqb_sym a "/").
  destruct (Ascii.eqb "/" a); [discriminate|]. by rewrite (IH H).
Qed.

Lemma plain_inv (name : string) :
  PyPath.plain name = true →
  PyStr.nonempty name = true ∧ PyStr.contains "/" name = false
  ∧ String.eqb name "." = false.
Proof.
  unfold PyPath.plain. rewrite !andb_true_iff, !negb_true_iff. tauto.
Qed.

Lemma components_plain (name : string) :
  PyPath.plain name = true → PyPath.components name = [name].
Proof.
  intros H. destruct (plain_inv _ H) as (Hne & Hs & Hdot).
  unfold PyPath.components. rewrite (split_plain _ Hs). cbn [filter list_filter].
  rewrite decide_True; [reflexivity|]. by rewrite Hne, Hdot.
Qed.

Lemma plain_relative (name : string) :
  PyPath.plain name = true → PyStr.startswith "/" name = false.
Proof.
  intros H. destruct (plain_inv _ H) as (_ & Hs & _).
  destruct name as [|a name]; [reflexivity|].
  cbn [PyStr.contains PyStr.startswith] in *.
  destruct (Ascii.eqb "/" a); [discriminate | reflexivity].
Qed.

Lemma join_snoc (sep name : string) (l : list string) :
  l ≠ [] → PyStr.join sep (l ++ [name]) = PyStr.join sep l +:+ sep +:+ name.
Proof.
  induction l as [|x l IH]; [done|]. intros _.
  destruct l as [|y l]; [reflexivity|].
  change (PyStr.join sep ((x :: y :: l) ++ [name]))
    with (x +:+ sep +:+ PyStr.join sep ((y :: l) ++ [name])).
  rewrite IH by done.
  change (PyStr.join sep (x :: y :: l)) with (x +:+ sep +:+ PyStr.join sep (y :: l)).
  by rewrite !append_assoc.
Qed.

(** The string of an entry of a directory: what precedes the name depends
    on the directory alone. *)
Lemma joinpath_plain (dir name : string) :
  PyPath.plain name = true →
  PyPath.joinpath dir name = PyPath.dir_prefix (PyPath.parse dir) +:+ name.
Proof.
  intros H. unfold PyPath.joinpath, PyPath.child, PyPath.dir_prefix.
  rewrite (plain_relative _ H), (components_plain _ H).
  destruct (PyPath.parse dir) as [root parts]. cbn [fst snd].
  destruct parts as [|x parts].
  - cbn [app PyPath.to_str PyStr.join]. by destruct root.
  - assert (Hto : ∀ l, l ≠ [] → PyPath.to_str (root, l) = root +:+ PyStr.join "/" l).
    { intros [|y l] Hl; [done|]. by destruct root. }
    rewrite Hto by done. rewrite join_snoc by done. by rewrite !append_assoc.
Qed.

(** A new entry [pfx ++ mid ++ sfx] of [dir] is matched by [pfx*sfx]. *)
Lemma glob_match_entry (special : string → string → string → bool)
    (dir pfx mid sfx : string) :
  PyPath.has_magic pfx = false → PyPath.has_magic sfx = false →
  PyPath.plain (pfx +:+ mid +:+ sfx) = true →
  PyPath.glob_match special dir pfx sfx (PyPath.joinpath dir (pfx +:+ mid +:+ sfx)) = true.
Proof.
  intros Hp Hs Hplain. unfold PyPath.glob_match.
  rewrite Hp, Hs, (joinpath_plain _ _ Hplain), strip_prefix_app, Hplain, startswith_app.
  rewrite <- (append_assoc pfx mid sfx), endswith_app, !length_append.
  cbn [orb andb]. apply Nat.leb_le. lia.
Qed.

Lemma has_magic_app (a b : string) :
  PyPath.has_magic (a +:+ b) = PyPath.has_magic a || PyPath.has_magic b.
Proof.
  unfold PyPath.has_magic. rewrite !contains_char_app.
  repeat match goal with |- context [PyStr.contains ?k ?x] =>
    destruct (PyStr.contains k x) end; reflexivity.
Qed.

Lemma has_magic_slash (s : string) :
  PyPath.has_magic s = false → PyStr.contains "/" s = false.
Proof. unfold PyPath.has_magic. rewrite !orb_false_iff. tauto. Qed.

(** The names [save_image] writes are single components. *)
Lemma saved_name_plain (prefix stamp counter sfx : string) :
  PyStr.contains "/" prefix = false → PyStr.contains "/" stamp = false →
  PyStr.contains "/" counter = false → PyStr.contains "/" sfx = false →
  PyPath.plain ((prefix +:+ "_" +:+ stamp +:+ "_") +:+ counter +:+ sfx) = true.
Proof.
  intros Hp Hs Hc Hx. unfold PyPath.plain.
  rewrite !contains_char_app, Hp, Hs, Hc, Hx. rewrite !append_assoc.
  assert (Hu : PyStr.contains "_" (prefix +:+ "_" +:+ stamp +:+ "_" +:+ counter +:+ sfx)
               = true) by apply contains_app.
  destruct (prefix +:+ "_" +:+ stamp +:+ "_" +:+ counter +:+ sfx) as [|a rest] eqn:E;
    [discriminate Hu|].
  cbn [PyStr.nonempty orb negb andb].
  destruct (String.eqb_spec (String a rest) ".") as [Heq|]; [|reflexivity].
  rewrite Heq in Hu. discriminate Hu.
Qed.

Lemma ext_map_values (mime_type : string) :
  default "png" (assoc mime_type ext_map) ∈ ["png"; "jpg"; "webp"; "gif"].
Proof.
  unfold ext_map. cbn [assoc].
  repeat match goal with |- context [String.eqb ?a ?b] => destruct (String.eqb a b) end;
    cbn [default]; rewrite !elem_of_cons; tauto.
Qed.

Lemma detect_format_ext (data ext payload : string) :
  detect_format data = Ok (ext, payload) → PyStr.contains "/" ("." +:+ ext) = false.
Proof.
  unfold detect_format. intros H.
  assert (Hin : ext ∈ ["png"; "jpg"; "webp"; "gif"]).
  { destruct (PyStr.startswith "data:" data).
    - destruct (PyPath.split_once "," data) as [[h d]|]; [|discriminate].
      injection H as <- _. apply ext_map_values.
    - injection H as <- _. rewrite !elem_of_cons. tauto. }
  rewrite !elem_of_cons, elem_of_nil in Hin.
  destruct Hin as [-> | [-> | [-> | [-> | []]]]]; reflexivity.
Qed.

Lemma detect_format_ext_plain (data ext payload : string) :
  detect_format data = Ok (ext, payload) → PyPath.has_magic ("." +:+ ext) = false.
Proof.
  unfold detect_format. intros H.
  assert (Hin : ext ∈ ["png"; "jpg"; "webp"; "gif"]).
  { destruct (PyStr.startswith "data:" data).
    - destruct (PyPath.split_once "," data) as [[h d]|]; [|discriminate].
      injection H as <- _. apply ext_map_values.
    - injection H as <- _. rewrite !elem_of_cons. tauto. }
  rewrite !elem_of_cons, elem_of_nil in Hin.
  destruct Hin as [-> | [-> | [-> | [-> | []]]]]; reflexivity.
Qed.

(** What one successful save does: the counter is the number of matching
    entries plus one. *)
Lemma save_image_run (env : Env) (data ext payload dir prefix : string) (w : World) :
  detect_format data = Ok (ext, payload) →
  b64_valid env payload = true →
  let pfx := prefix +:+ "_" +:+ now_stamp env +:+ "_" in
  let n := size (filter (λ p, PyPath.glob_match (glob_special env) dir pfx
                                ("." +:+ ext) p = true) (fs w)) in
  let path := PyPath.joinpath dir (pfx +:+ fmt_03d (n + 1) +:+ "." +:+ ext) in
  save_image env (JStr data) dir prefix w = (Ok path, with_file path w).
Proof.
  intros Hd Hv pfx n path. unfold save_image. run. rewrite Hd.
  unfold glob, create_file. rewrite Hv.
  subst path n pfx. rewrite !append_assoc. reflexivity.
Qed.

Lemma fmt_03d_1 : fmt_03d 1 = "001".
Proof. vm_compute. reflexivity. Qed.

Lemma fmt_03d_2 : fmt_03d 2 = "002".
Proof. vm_compute. reflexivity. Qed.

(** The counter is a count, not the next free number: in a directory that
    holds [gen_20250101_120000_002.png] and nothing else, two saves in that
    second both return that very name. *)
Lemma save_image_same_name :
  let w := with_file "/out/gen_20250101_120000_002.png" world0 in
  let first := save_image env_down (JStr "aGVsbG8=") "/out" "gen" w in
  let second := save_image env_down (JStr "d29ybGQ=") "/out" "gen" first.2 in
  first.1 = Ok "/out/gen_20250101_120000_002.png"
  ∧ second.1 = Ok "/out/gen_20250101_120000_002.png"
  ∧ fs w ⊆ fs first.2.
Proof.
  split; [vm_compute; reflexivity|].
  split; [vm_compute; reflexivity|].
  cbn. apply union_subseteq_r.
Qed.

(** C7, as stated, fails: the counter is the number of matching entries
    plus one, so it starts at 001 only in a directory without matching
    entry.  In a directory that holds [gen_20250101_120000_001.png], two
    saves in that second return the names with 002 and 003, and no file is
    removed. *)
Lemma save_image_counts_entries :
  let w := with_file "/out/gen_20250101_120000_001.png" world0 in
  let first := save_image env_down (JStr "aGVsbG8=") "/out" "gen" w in
  let second := save_image env_down (JStr "d29ybGQ=") "/out" "gen" first.2 in
  first.1 = Ok "/out/gen_20250101_120000_002.png"
  ∧ second.1 = Ok "/out/gen_20250101_120000_003.png"
  ∧ first.1 ≠ Ok "/out/gen_20250101_120000_001.png"
  ∧ fs w ⊆ fs first.2.
Proof.
  split; [vm_compute; reflexivity|].
  split; [vm_compute; reflexivity|].
  split; [vm_compute; discriminate|].
  cbn. apply union_subseteq_r.
Qed.

(** C7 (amended): when no entry of the directory matches
    [<prefix>_<timestamp>_*.<ext>] beforehand, two saves with the same
    timestamp, prefix and extension, with the directory untouched in
    between, return the entries [<prefix>_<timestamp>_001.<ext>] and then
    [<prefix>_<timestamp>_002.<ext>] of the directory; the prefix and the
    timestamp are plain text, without pattern character or separator. *)
Theorem save_image_twice :
  ∀ env dir prefix data1 data2 ext payload1 payload2 w,
    detect_format data1 = Ok (ext, payload1) →
    detect_format data2 = Ok (ext, payload2) →
    b64_valid env payload1 = true →
    b64_valid env payload2 = true →
    PyPath.has_magic prefix = false →
    PyPath.has_magic (now_stamp env) = false →
    (∀ p, p ∈ fs w →
       PyPath.glob_match (glob_special env) dir
         (prefix +:+ "_" +:+ now_stamp env +:+ "_") ("." +:+ ext) p
       = false) →
    let name1 := prefix +:+ "_" +:+ now_stamp env +:+ "_" +:+ "001" +:+ "." +:+ ext in
    let name2 := prefix +:+ "_" +:+ now_stamp env +:+ "_" +:+ "002" +:+ "." +:+ ext in
    name1 ≠ name2
    ∧ PyPath.joinpath dir name1 ≠ PyPath.joinpath dir name2
    ∧ ∃ w1 w2,
        save_image env (JStr data1) dir prefix w = (Ok (PyPath.joinpath dir name1), w1)
        ∧ save_image env (JStr data2) dir prefix w1 = (Ok (PyPath.joinpath dir name2), w2).
Proof.
  intros env dir prefix data1 data2 ext payload1 payload2 w
    Hd1 Hd2 Hv1 Hv2 Hprefix Hstamp Hnone name1 name2.
  set (pfx := prefix +:+ "_" +:+ now_stamp env +:+ "_").
  set (P := λ p, PyPath.glob_match (glob_special env) dir pfx ("." +:+ ext) p = true).
  assert (Hpfx : PyPath.has_magic pfx = false).
  { subst pfx. rewrite !has_magic_app, Hprefix, Hstamp. reflexivity. }
  assert (Hext : PyPath.has_magic ("." +:+ ext) = false)
    by exact (detect_format_ext_plain _ _ _ Hd1).
  assert (Hplain : ∀ counter, PyStr.contains "/" counter = false →
            PyPath.plain (pfx +:+ counter +:+ "." +:+ ext) = true).
  { intros counter Hc. subst pfx.
    apply saved_name_plain; auto using has_magic_slash. }
  assert (Hempty : filter P (fs w) = ∅).
  { apply set_eq. intros p. rewrite elem_of_filter. split; [|set_solver].
    intros [Hp Hin]. unfold P in Hp. subst pfx.
    rewrite (Hnone p Hin) in Hp. discriminate. }
  assert (Hn1 : name1 = pfx +:+ fmt_03d (size (filter P (fs w)) + 1) +:+ "." +:+ ext).
  { rewrite Hempty, size_empty. cbn [Nat.add]. rewrite fmt_03d_1. subst name1 pfx.
    rewrite !append_assoc. reflexivity. }
  assert (Hnew : P (PyPath.joinpath dir name1)).
  { unfold P. rewrite Hn1, Hempty, size_empty. cbn [Nat.add]. rewrite fmt_03d_1.
    apply glob_match_entry; [exact Hpfx | exact Hext | by apply Hplain]. }
  assert (Hone : filter P (fs (with_file (PyPath.joinpath dir name1) w))
                 = {[PyPath.joinpath dir name1]}).
  { cbn [fs with_file]. apply set_eq. intros p.
    rewrite elem_of_filter, elem_of_union, !elem_of_singleton. split.
    - intros [Hp [-> | Hin]]; [reflexivity|].
      assert (Hin' : p ∈ filter P (fs w)) by (by apply elem_of_filter).
      rewrite Hempty in Hin'. by apply not_elem_of_empty in Hin'.
    - intros ->. auto. }
  assert (Hn2 : name2 = pfx +:+ fmt_03d
                  (size (filter P (fs (with_file (PyPath.joinpath dir name1) w))) + 1)
                  +:+ "." +:+ ext).
  { rewrite Hone, size_singleton. cbn [Nat.add]. rewrite fmt_03d_2. subst name2 pfx.
    rewrite !append_assoc. reflexivity. }
  assert (Hne : name1 ≠ name2).
  { subst name1 name2. intros Heq.
    repeat (apply (inj (String.app _)) in Heq). discriminate. }
  split; [exact Hne|]. split.
  - assert (H1 : name1 = pfx +:+ "001" +:+ "." +:+ ext)
      by (subst name1 pfx; by rewrite !append_assoc).
    assert (H2 : name2 = pfx +:+ "002" +:+ "." +:+ ext)
      by (subst name2 pfx; by rewrite !append_assoc).
    rewrite (joinpath_plain dir name1) by (rewrite H1; by apply Hplain).
    rewrite (joinpath_plain dir name2) by (rewrite H2; by apply Hplain).
    intros Heq. apply (inj (String.app _)) in Heq. contradiction.
  - exists (with_file (PyPath.joinpath dir name1) w),
           (with_file (PyPath.joinpath dir name2)
              (with_file (PyPath.joinpath dir name1) w)).
    split.
    + rewrite Hn1. exact (save_image_run env data1 ext payload1 dir prefix w Hd1 Hv1).
    + rewrite Hn2.
      exact (save_image_run env data2 ext payload2 dir prefix
               (with_file (PyPath.joinpath dir name1) w) Hd2 Hv2).
Qed.

Lemma save_image_twice_witness :
  ∃ w1 w2,
    save_image env_down (JStr "aGVsbG8=") "/" "gen" world0
    = (Ok "/gen_20250101_120000_001.png", w1)
    ∧ save_image env_down (JStr "d29ybGQ=") "/" "gen" w1
      = (Ok "/gen_20250101_120000_002.png", w2).
Proof.
  apply (save_image_twice env_down "/" "gen" "aGVsbG8=" "d29ybGQ=" "png"
           "aGVsbG8=" "d29ybGQ=" world0 eq_refl eq_refl eq_refl eq_refl eq_refl eq_refl).
  intros p Hp. cbn in Hp. set_solver.
Defined.

(** ** Input image of the generate command *)

(** With no explicit input, [generate] falls back on the session's current
    image whichever command called it. *)
Lemma resolve_input_image_falls_back (session : gmap string json) (current : string) :
  session !! "current_image" = Some (JStr current) →
  PyStr.nonempty current = true →
  resolve_input_image None session = JStr current.
Proof.
  intros Hcur Hne. unfold resolve_input_image, session_get.
  rewrite Hcur. cbn. rewrite Hne. reflexivity.
Qed.

(** C1: the code does not keep the generate command free of the session's
    image.  Two generate commands in a row, neither with an input image:
    the first posts to the generations endpoint, the second posts the
    file the first one saved to the edits endpoint. *)
Theorem generate_command_edits_current_image :
  let env := env_up body_image in
  let first :=
    main env (CmdGenerate "a red circle" "gpt-image-1.5" None None None "auto"
                false false) world0 in
  let second :=
    main env (CmdGenerate "a blue square" "gpt-image-1.5" None None None "auto"
                false false) first.2 in
  first.1 = 0
  ∧ session_get (default ∅ (session_file first.2)) "current_image"
    = JStr "/proj/generated-images/gen_20250101_120000_001.png"
  ∧ second.1 = 0
  ∧ trace second.2
    = [ EvPost "https://api.openai.com/v1/images/generations"
          (JsonBody (JDict [ ("model", JStr "gpt-image-1.5");
                             ("prompt", JStr "a red circle");
                             ("size", JStr "auto"); ("quality", JStr "auto");
                             ("output_format", JStr "png");
                             ("background", JStr "auto"); ("n", JNum 1) ]));
        EvPost "https://api.openai.com/v1/images/edits"
          (Multipart "/proj/generated-images/gen_20250101_120000_001.png"
             [ ("model", "gpt-image-1.5"); ("prompt", "a blue square");
               ("size", "auto") ]) ].
Proof. repeat split; vm_compute; reflexivity. Qed.

(** ** Response parsing *)

Lemma scan_content_none (parts : list json) (fallback : result json) :
  Forall no_image_part parts → scan_content parts fallback = fallback.
Proof.
  induction 1 as [|part parts (d & -> & Hty) _ IH]; [reflexivity|].
  cbn. rewrite Hty. exact IH.
Qed.

(** Where the adapter does raise: the message has no "images" entry, or a
    falsy one, and its content is not a list or a list without inline
    image. *)
Lemma extract_image_no_image (d : list (string * json)) :
  truthy (default JNull (assoc "images" d)) = false →
  match assoc "content" d with
  | Some (JList parts) => Forall no_image_part parts
  | _ => True
  end →
  extract_image (JDict d)
  = Raise (Exn ValueError ("No image in response. Message keys: " +:+ repr_keys d)).
Proof.
  intros Himg Hcontent. unfold extract_image. cbn.
  destruct (assoc "images" d) as [images|]; cbn in *.
  - rewrite Himg. cbn.
    destruct (assoc "content" d) as [[| | | |parts|]|]; cbn; try reflexivity.
    by apply scan_content_none.
  - destruct (assoc "content" d) as [[| | | |parts|]|]; cbn; try reflexivity.
    by apply scan_content_none.
Qed.

(** C8: the code does not raise on every response without image.  When
    the first element of "images" is an object with none of the keys the
    adapter knows, [extract_image] returns [None]: the adapter returns
    normally, neither looking at the content nor raising the error that
    reports the message keys, and the command fails later, in
    [save_image]. *)
Theorem extract_image_unknown_shape_returns_none :
  extract_image message_unknown_shape = Ok JNull
  ∧ (generate_openrouter (env_up body_unknown_shape) "a cat"
       "google/gemini-3-pro-image-preview" JNull None None world0).1 = Ok JNull
  ∧ (generate (env_up body_unknown_shape) "a cat" (Some "nano-banana-pro")
       None None None None "auto" false false world0).1
    = Raise (Exn AttributeError "object has no attribute 'startswith'").
Proof. repeat split; vm_compute; reflexivity. Qed.

(** * Further properties *)

(** ** Model selection: the whole decision table *)

Lemma startswith_inv (p s : string) :
  PyStr.startswith p s = true → ∃ post, s = p +:+ post.
Proof.
  revert s. induction p as [|a p IH]; intros s H.
  - by exists s.
  - destruct s as [|b s]; [discriminate|]. cbn [PyStr.startswith] in H.
    destruct (Ascii.eqb_spec a b) as [->|]; [|discriminate].
    destruct (IH s H) as [post ->]. by exists post.
Qed.

Lemma contains_inv (kw s : string) :
  PyStr.contains kw s = true → ∃ pre post, s = pre +:+ kw +:+ post.
Proof.
  induction s as [|c s IH]; cbn [PyStr.contains]; intros H.
  - rewrite orb_false_r in H. destruct (startswith_inv _ _ H) as [post ->].
    by exists "", post.
  - apply orb_true_iff in H as [H | H].
    + destruct (startswith_inv _ _ H) as [post ->]. by exists "", post.
    + destruct (IH H) as (pre & post & ->). by exists (String c pre), post.
Qed.

(** A split of the lowered text comes from a split of the text. *)
Lemma lower_split (p a b : string) :
  PyStr.lower p = a +:+ b →
  ∃ p1 p2, p = p1 +:+ p2 ∧ PyStr.lower p1 = a ∧ PyStr.lower p2 = b.
Proof.
  revert p. induction a as [|x a IH]; intros p H.
  - by exists "", p.
  - destruct p as [|c p]; [discriminate|].
    change (String x a +:+ b) with (String x (a +:+ b)) in H.
    cbn [PyStr.lower] in H. injection H as Hc H.
    destruct (IH p H) as (p1 & p2 & -> & <- & <-).
    exists (String c p1), p2. cbn [PyStr.lower]. by rewrite Hc.
Qed.

(** For keywords written in lower case, the test of [select_model] is
    exactly "the prompt mentions a keyword". *)
Lemma any_in_mentions (kws : list string) (prompt : string) :
  Forall (λ kw, PyStr.lower kw = kw) kws →
  any_in kws (PyStr.lower prompt) = true ↔ mentions kws prompt.
Proof.
  intros Hlow. rewrite Forall_forall in Hlow. split.
  - unfold any_in. rewrite existsb_exists. intros (kw & Hin & Hc).
    apply list_elem_of_In in Hin.
    destruct (contains_inv _ _ Hc) as (pre & post & Heq).
    destruct (lower_split _ _ _ Heq) as (p1 & p23 & -> & _ & H23).
    destruct (lower_split _ _ _ H23) as (p2 & p3 & -> & H2 & _).
    exists kw, p1, p2, p3. rewrite (Hlow kw Hin). auto.
  - intros (kw & pre & mid & post & Hin & -> & Hmid).
    apply (any_in_intro _ kw); [exact Hin|].
    rewrite !lower_app, Hmid, (Hlow kw Hin). apply contains_app.
Qed.

Lemma transparency_keywords_lowercase :
  Forall (λ kw, PyStr.lower kw = kw) transparency_keywords.
Proof. repeat constructor. Qed.

Lemma text_keywords_lowercase : Forall (λ kw, PyStr.lower kw = kw) text_keywords.
Proof. repeat constructor. Qed.

Lemma fast_keywords_lowercase : Forall (λ kw, PyStr.lower kw = kw) fast_keywords.
Proof. repeat constructor. Qed.

(** X1: [select_model] returns "gpt-image-1.5" exactly when transparency
    or text is asked for, by flag or by a keyword in the prompt. *)
Theorem select_model_gpt_iff :
  ∀ prompt transparent high_res fast text_heavy,
    select_model prompt transparent high_res fast text_heavy = "gpt-image-1.5"
    ↔ transparent = true ∨ mentions transparency_keywords prompt
      ∨ text_heavy = true ∨ mentions text_keywords prompt.
Proof.
  intros prompt transparent high_res fast text_heavy.
  rewrite <- (any_in_mentions _ prompt transparency_keywords_lowercase).
  rewrite <- (any_in_mentions _ prompt text_keywords_lowercase).
  unfold select_model.
  destruct transparent, text_heavy,
    (any_in transparency_keywords (PyStr.lower prompt)),
    (any_in text_keywords (PyStr.lower prompt)); cbn [orb];
    try (split; [intros _; tauto | reflexivity]).
  destruct (fast || any_in fast_keywords (PyStr.lower prompt));
    [|destruct (high_res || _)];
    (split; [discriminate | intros [|[|[|]]]; discriminate]).
Qed.

(** X2: [select_model] returns "nano-banana" exactly when neither
    transparency nor text is asked for and a draft is, by the fast flag or
    by a draft keyword in the prompt. *)
Theorem select_model_nano_banana_iff :
  ∀ prompt transparent high_res fast text_heavy,
    select_model prompt transparent high_res fast text_heavy = "nano-banana"
    ↔ (transparent = false ∧ ¬ mentions transparency_keywords prompt
       ∧ text_heavy = false ∧ ¬ mentions text_keywords prompt)
      ∧ (fast = true ∨ mentions fast_keywords prompt).
Proof.
  intros prompt transparent high_res fast text_heavy.
  rewrite <- (any_in_mentions _ prompt transparency_keywords_lowercase).
  rewrite <- (any_in_mentions _ prompt text_keywords_lowercase).
  rewrite <- (any_in_mentions _ prompt fast_keywords_lowercase).
  unfold select_model.
  destruct transparent, text_heavy,
    (any_in transparency_keywords (PyStr.lower prompt)),
    (any_in text_keywords (PyStr.lower prompt)); cbn [orb];
    try (split; [discriminate | intros [(? & ? & ? & ?) _]; congruence]).
  destruct fast, (any_in fast_keywords (PyStr.lower prompt)); cbn [orb];
    try (split; [intros _; split; [repeat split; congruence | tauto] | reflexivity]).
  destruct (high_res || _);
    (split; [discriminate | intros [_ [|]]; discriminate]).
Qed.

(** X3: the high-resolution signal never changes the model chosen: with or
    without the flag, [select_model] returns the same alias. *)
Theorem select_model_ignores_high_res :
  ∀ prompt transparent high_res high_res' fast text_heavy,
    select_model prompt transparent high_res fast text_heavy
    = select_model prompt transparent high_res' fast text_heavy.
Proof.
  intros. unfold select_model.
  repeat match goal with
         | |- context [if ?b || ?c then _ else _] => destruct (b || c)
         end; reflexivity.
Qed.

(** ** Data URLs and file names *)

Lemma split_once_app (c : ascii) (a b : string) :
  PyStr.contains (String c "") a = false →
  PyPath.split_once c (a +:+ String c b) = Some (a, b).
Proof.
  induction a as [|x a IH]; intros H.
  - change ("" +:+ String c b) with (String c b).
    cbn [PyPath.split_once]. by rewrite Ascii.eqb_refl.
  - change (String x a +:+ String c b) with (String x (a +:+ String c b)).
    cbn [PyStr.contains PyStr.startswith] in H. cbn [PyPath.split_once].
    rewrite (Ascii.eqb_sym x c).
    destruct (Ascii.eqb c x); [discriminate|]. by rewrite (IH H).
Qed.

Lemma split_once_absent (c : ascii) (s : string) :
  PyStr.contains (String c "") s = false → PyPath.split_once c s = None.
Proof.
  induction s as [|x s IH]; [reflexivity|]. intros H.
  cbn [PyStr.contains PyStr.startswith] in H. cbn [PyPath.split_once].
  rewrite (Ascii.eqb_sym x c).
  destruct (Ascii.eqb c x); [discriminate|]. by rewrite (IH H).
Qed.

Lemma before_first_app (c : ascii) (a b : string) :
  PyStr.contains (String c "") a = false →
  PyPath.before_first c (a +:+ String c b) = a.
Proof.
  induction a as [|x a IH]; intros H.
  - change ("" +:+ String c b) with (String c b).
    cbn [PyPath.before_first]. by rewrite Ascii.eqb_refl.
  - change (String x a +:+ String c b) with (String x (a +:+ String c b)).
    cbn [PyStr.contains PyStr.startswith] in H. cbn [PyPath.before_first].
    rewrite (Ascii.eqb_sym x c).
    destruct (Ascii.eqb c x); [discriminate|]. by rewrite (IH H).
Qed.

Lemma contains_tail (old : string) (x : ascii) (s : string) :
  PyStr.contains old (String x s) = false →
  PyStr.startswith old (String x s) = false ∧ PyStr.contains old s = false.
Proof. cbn [PyStr.contains]. intros H. by apply orb_false_iff in H. Qed.

Lemma remove_all_absent (old s : string) :
  PyStr.contains old s = false → PyPath.remove_all old s = s.
Proof.
  unfold PyPath.remove_all. induction s as [|x s IH]; [reflexivity|]. intros H.
  destruct (contains_tail _ _ _ H) as [Hs Hc].
  cbn [PyPath.remove_all_go]. rewrite Hs, andb_false_r, (IH Hc). reflexivity.
Qed.

(** X4: of a data URL [data:<mime>;base64,<payload>], [save_image] keeps
    the payload after the first comma and takes the extension that
    [ext_map] gives for the MIME type, "png" when it has none. *)
Theorem detect_format_data_url :
  ∀ mime payload,
    PyStr.contains "," mime = false →
    PyStr.contains ";" mime = false →
    PyStr.contains "data:" mime = false →
    detect_format ("data:" +:+ mime +:+ ";base64," +:+ payload)
    = Ok (default "png" (assoc mime ext_map), payload).
Proof.
  intros mime payload Hcomma Hsemi Hdata. unfold detect_format.
  rewrite startswith_app.
  replace ("data:" +:+ mime +:+ ";base64," +:+ payload)
    with (("data:" +:+ mime +:+ ";base64") +:+ String "," payload)
    by (rewrite !append_assoc; reflexivity).
  rewrite split_once_app
    by (rewrite !contains_char_app, Hcomma; reflexivity).
  replace ("data:" +:+ mime +:+ ";base64")
    with (("data:" +:+ mime) +:+ String ";" "base64")
    by (rewrite !append_assoc; reflexivity).
  rewrite before_first_app
    by (rewrite !contains_char_app, Hsemi; reflexivity).
  change (PyPath.remove_all "data:" ("data:" +:+ mime))
    with (PyPath.remove_all "data:" mime).
  rewrite (remove_all_absent _ _ Hdata). reflexivity.
Qed.

Lemma detect_format_data_url_witness :
  detect_format ("data:" +:+ "image/jpeg" +:+ ";base64," +:+ "aGVsbG8=")
  = Ok ("jpg", "aGVsbG8=").
Proof.
  apply (detect_format_data_url "image/jpeg" "aGVsbG8=" eq_refl eq_refl eq_refl).
Defined.

(** X5: a payload that starts with "data:" but holds no comma makes
    [save_image] raise [ValueError] before anything is written. *)
Theorem save_image_data_url_without_comma :
  ∀ env data dir prefix w,
    PyStr.startswith "data:" data = true →
    PyStr.contains "," data = false →
    save_image env (JStr data) dir prefix w
    = (Raise (Exn ValueError "not enough values to unpack (expected 2, got 1)"), w).
Proof.
  intros env data dir prefix w Hstart Hcomma.
  unfold save_image, detect_format. run.
  rewrite Hstart, (split_once_absent _ _ Hcomma). reflexivity.
Qed.

Lemma save_image_data_url_without_comma_witness :
  save_image env_down (JStr "data:image/png;base64") "/out" "gen" world0
  = (Raise (Exn ValueError "not enough values to unpack (expected 2, got 1)"), world0).
Proof.
  apply (save_image_data_url_without_comma env_down "data:image/png;base64"
           "/out" "gen" world0 eq_refl eq_refl).
Defined.

Lemma startswith_app_cancel (a p s : string) :
  PyStr.startswith (a +:+ p) (a +:+ s) = PyStr.startswith p s.
Proof.
  induction a as [|x a IH]; [reflexivity|].
  change (String x a +:+ p) with (String x (a +:+ p)).
  change (String x a +:+ s) with (String x (a +:+ s)).
  cbn [PyStr.startswith]. by rewrite Ascii.eqb_refl.
Qed.

(** X6: when the payload is not valid base64, [save_image] raises
    [ValueError] after it has opened the output file: the (empty) file is
    left in the directory, under the very name (counter and extension
    included) that the save returns when the payload is valid; the prefix
    and the timestamp are plain text, so that the file is opened in the
    output directory itself. *)
Theorem save_image_bad_base64_leaves_file :
  ∀ env data ext payload dir prefix w,
    PyPath.has_magic prefix = false →
    PyPath.has_magic (now_stamp env) = false →
    detect_format data = Ok (ext, payload) →
    b64_valid env payload = false →
    let pfx := prefix +:+ "_" +:+ now_stamp env +:+ "_" in
    let n := size (filter (λ p, PyPath.glob_match (glob_special env) dir pfx
                                  ("." +:+ ext) p = true) (fs w)) in
    let path := PyPath.joinpath dir (pfx +:+ fmt_03d (n + 1) +:+ "." +:+ ext) in
    save_image env (JStr data) dir prefix w
    = (Raise (Exn ValueError "Incorrect padding"), with_file path w)
    ∧ path ∈ fs (with_file path w)
    ∧ ∀ env',
        now_stamp env' = now_stamp env →
        glob_special env' = glob_special env →
        b64_valid env' payload = true →
        save_image env' (JStr data) dir prefix w = (Ok path, with_file path w).
Proof.
  intros env data ext payload dir prefix w _ _ Hd Hv pfx n path.
  split; [|split].
  - unfold save_image. run. rewrite Hd. unfold glob, create_file.
    rewrite Hv. subst path n pfx. rewrite !append_assoc. reflexivity.
  - cbn. apply elem_of_union_l, elem_of_singleton. reflexivity.
  - intros env' Hstamp Hglob Hv'.
    pose proof (save_image_run env' data ext payload dir prefix w Hd Hv') as Hrun.
    cbv zeta in Hrun. rewrite Hstamp, Hglob in Hrun. exact Hrun.
Qed.

Lemma save_image_bad_base64_leaves_file_witness :
  save_image env_bad_base64 (JStr "aGVsbG8") "/out" "gen" world0
  = (Raise (Exn ValueError "Incorrect padding"),
     with_file "/out/gen_20250101_120000_001.png" world0)
  ∧ save_image env_down (JStr "aGVsbG8") "/out" "gen" world0
    = (Ok "/out/gen_20250101_120000_001.png",
       with_file "/out/gen_20250101_120000_001.png" world0).
Proof.
  pose proof (save_image_bad_base64_leaves_file env_bad_base64 "aGVsbG8" "png" "aGVsbG8"
                "/out" "gen" world0 eq_refl eq_refl eq_refl eq_refl) as (Hraise & _ & Hok).
  split; [exact Hraise|].
  exact (Hok env_down eq_refl eq_refl eq_refl).
Defined.

(** What a save that returns has done. *)
Lemma save_image_Ok_inv (env : Env) (data : json) (dir prefix path : string)
    (w w' : World) :
  save_image env data dir prefix w = (Ok path, w') →
  ∃ s ext payload,
    data = JStr s ∧ detect_format s = Ok (ext, payload)
    ∧ b64_valid env payload = true
    ∧ path = PyPath.joinpath dir
               ((prefix +:+ "_" +:+ now_stamp env +:+ "_") +:+
                fmt_03d (size (filter
                   (λ p, PyPath.glob_match (glob_special env) dir
                           (prefix +:+ "_" +:+ now_stamp env +:+ "_")
                           ("." +:+ ext) p = true) (fs w)) + 1)
                +:+ "." +:+ ext)
    ∧ w' = with_file path w.
Proof.
  unfold save_image. run. destruct data as [| | |s| |]; try discriminate.
  destruct (detect_format s) as [[ext payload]|] eqn:Hd; [|discriminate].
  unfold glob, create_file.
  destruct (b64_valid env payload) eqn:Hv; [|discriminate].
  intros [= <- <-]. exists s, ext, payload.
  split; [reflexivity|]. split; [exact Hd|]. split; [exact Hv|].
  rewrite !append_assoc. split; reflexivity.
Qed.



(** ** MIME type of an input image *)

Lemma after_last_absent (c : ascii) (s : string) :
  PyStr.contains (String c "") s = false → PyPath.after_last c s = None.
Proof.
  induction s as [|x s IH]; [reflexivity|]. intros H.
  cbn [PyStr.contains PyStr.startswith] in H. cbn [PyPath.after_last].
  rewrite (Ascii.eqb_sym x c).
  destruct (Ascii.eqb c x); [discriminate|]. by rewrite (IH H).
Qed.

Lemma after_last_app (c : ascii) (a b : string) :
  PyStr.contains (String c "") b = false →
  PyPath.after_last c (a +:+ String c b) = Some b.
Proof.
  intros H. induction a as [|x a IH].
  - change ("" +:+ String c b) with (String c b).
    cbn [PyPath.after_last]. by rewrite (after_last_absent _ _ H), Ascii.eqb_refl.
  - change (String x a +:+ String c b) with (String x (a +:+ String c b)).
    cbn [PyPath.after_last]. by rewrite IH.
Qed.

(** The suffix of [dir/stem.ext] is [.ext]. *)
Lemma suffix_of_file (dir stem ext : string) :
  PyStr.contains "/" stem = false → PyStr.contains "/" ext = false →
  PyStr.contains "." ext = false →
  PyStr.nonempty stem = true → PyStr.nonempty ext = true →
  PyPath.suffix (dir +:+ "/" +:+ stem +:+ "." +:+ ext) = "." +:+ ext.
Proof.
  intros Hs He Hdot Hstem Hext. unfold PyPath.suffix, PyPath.name.
  change ("/" +:+ stem +:+ "." +:+ ext) with (String "/" (stem +:+ "." +:+ ext)).
  rewrite after_last_app
    by (rewrite !contains_char_app, Hs, He; reflexivity).
  cbn [default]. unfold id. cbv zeta.
  change ("." +:+ ext) with (String "." ext).
  rewrite (after_last_app _ _ _ Hdot), Hext, length_append. cbn [String.length andb].
  destruct stem; [discriminate|]. cbn [String.length].
  replace (_ <? _) with true by (symmetry; apply Nat.ltb_lt; lia).
  reflexivity.
Qed.

(** X8: for an existing file [dir/stem.ext], [image_to_base64] returns the
    file's base64 text and the MIME type that [mime_map] gives for the
    extension after the last dot, compared in lower case ("image/png" when
    it has none), and changes nothing. *)
Theorem image_to_base64_mime :
  ∀ env dir stem ext w,
    PyStr.contains "/" stem = false → PyStr.contains "/" ext = false →
    PyStr.contains "." ext = false →
    PyStr.nonempty stem = true → PyStr.nonempty ext = true →
    dir +:+ "/" +:+ stem +:+ "." +:+ ext ∈ fs w →
    image_to_base64 env (JStr (dir +:+ "/" +:+ stem +:+ "." +:+ ext)) w
    = (Ok (file_b64 env (dir +:+ "/" +:+ stem +:+ "." +:+ ext),
           default "image/png" (assoc ("." +:+ PyStr.lower ext) mime_map)), w).
Proof.
  intros env dir stem ext w Hs He Hdot Hstem Hext Hin.
  unfold image_to_base64, as_path, read_b64. run.
  rewrite (suffix_of_file dir stem ext Hs He Hdot Hstem Hext).
  destruct (decide _); [|contradiction].
  change (PyStr.lower ("." +:+ ext)) with ("." +:+ PyStr.lower ext). reflexivity.
Qed.

Lemma image_to_base64_mime_witness :
  image_to_base64 env_down (JStr ("/in" +:+ "/" +:+ "photo.v2" +:+ "." +:+ "JPG"))
    (with_file "/in/photo.v2.JPG" world0)
  = (Ok ("aGVsbG8=", "image/jpeg"), with_file "/in/photo.v2.JPG" world0).
Proof.
  apply (image_to_base64_mime env_down "/in" "photo.v2" "JPG"
           (with_file "/in/photo.v2.JPG" world0) eq_refl eq_refl eq_refl eq_refl eq_refl).
  cbn. set_solver.
Defined.

(** ** Response shapes of the chat adapter *)

(** X9: when the first element of "images" is a string, the chat adapter
    returns that string as it is (even an empty one), whatever the rest of
    the message holds. *)
Theorem extract_image_string :
  ∀ d s rest,
    assoc "images" d = Some (JList (JStr s :: rest)) →
    extract_image (JDict d) = Ok (JStr s).
Proof.
  intros d s rest Himg. unfold extract_image. cbn. rewrite Himg. reflexivity.
Qed.

Lemma extract_image_string_witness :
  extract_image (JDict [("content", JStr ""); ("images", JList [JStr "data:image/png;base64,aGVsbG8="])])
  = Ok (JStr "data:image/png;base64,aGVsbG8=").
Proof.
  apply (extract_image_string
           [("content", JStr ""); ("images", JList [JStr "data:image/png;base64,aGVsbG8="])]
           "data:image/png;base64,aGVsbG8=" [] eq_refl).
Defined.

(** X10: when the first element of "images" is an object whose
    "image_url" is itself an object, the chat adapter returns the "url" of
    that object, and raises [KeyError] when it has none: the keys "url",
    "b64_json" and "data" of the outer object are not looked at. *)
Theorem extract_image_nested_url :
  ∀ d img rest u,
    assoc "images" d = Some (JList (JDict img :: rest)) →
    assoc "image_url" img = Some (JDict u) →
    extract_image (JDict d)
    = match assoc "url" u with
      | Some v => Ok v
      | None => Raise (Exn KeyError "url")
      end.
Proof.
  intros d img rest u Himg Hurl. unfold extract_image. cbn.
  rewrite Himg. cbn. rewrite Hurl. cbn. reflexivity.
Qed.

Lemma extract_image_nested_url_witness :
  extract_image
    (JDict [("images",
             JList [JDict [("type", JStr "image_url"); ("url", JStr "ignored");
                           ("image_url", JDict [("url", JStr "data:image/png;base64,aGVsbG8=")])]])])
  = Ok (JStr "data:image/png;base64,aGVsbG8=").
Proof.
  apply (extract_image_nested_url
           [("images",
             JList [JDict [("type", JStr "image_url"); ("url", JStr "ignored");
                           ("image_url", JDict [("url", JStr "data:image/png;base64,aGVsbG8=")])]])]
           [("type", JStr "image_url"); ("url", JStr "ignored");
            ("image_url", JDict [("url", JStr "data:image/png;base64,aGVsbG8=")])]
           [] [("url", JStr "data:image/png;base64,aGVsbG8=")] eq_refl eq_refl).
Defined.

(** X11: when the first element of "images" is an object without an
    "image_url" object, the chat adapter returns the first truthy value
    among its "url", "b64_json" and "data", in that order. *)
Theorem extract_image_flat_keys :
  ∀ d img rest,
    assoc "images" d = Some (JList (JDict img :: rest)) →
    is_dict (default JNull (assoc "image_url" img)) = false →
    let url := default JNull (assoc "url" img) in
    let b64_json := default JNull (assoc "b64_json" img) in
    let data := default JNull (assoc "data" img) in
    (truthy url = true → extract_image (JDict d) = Ok url)
    ∧ (truthy url = false → truthy b64_json = true →
       extract_image (JDict d) = Ok b64_json)
    ∧ (truthy url = false → truthy b64_json = false →
       extract_image (JDict d) = Ok data).
Proof.
  intros d img rest Himg Hnot url b64_json data.
  assert (Hrun : extract_image (JDict d) = Ok (py_or (py_or url b64_json) data)).
  { unfold extract_image. cbn. rewrite Himg. cbn.
    destruct (assoc "image_url" img) as [v|]; cbn in *; [|reflexivity].
    rewrite Hnot. reflexivity. }
  rewrite Hrun. unfold py_or. split; [|split].
  - intros Hu. rewrite Hu, Hu. reflexivity.
  - intros Hu Hb. rewrite Hu, Hb. reflexivity.
  - intros Hu Hb. rewrite Hu, Hb. reflexivity.
Qed.

Lemma extract_image_flat_keys_witness :
  extract_image
    (JDict [("images", JList [JDict [("url", JStr ""); ("b64_json", JStr "aGVsbG8=")]])])
  = Ok (JStr "aGVsbG8=").
Proof.
  apply (proj1 (proj2 (extract_image_flat_keys
           [("images", JList [JDict [("url", JStr ""); ("b64_json", JStr "aGVsbG8=")]])]
           [("url", JStr ""); ("b64_json", JStr "aGVsbG8=")] [] eq_refl eq_refl)));
    reflexivity.
Defined.

(** X12: when the message has no "images" entry, or a falsy one, and its
    content is a list, the chat adapter returns the "url" of the
    "image_url" object of the first part whose type is "image_url". *)
Theorem extract_image_content_fallback :
  ∀ d before part after image_url v,
    truthy (default JNull (assoc "images" d)) = false →
    assoc "content" d = Some (JList (before ++ JDict part :: after)) →
    Forall no_image_part before →
    assoc "type" part = Some (JStr "image_url") →
    assoc "image_url" part = Some (JDict image_url) →
    assoc "url" image_url = Some v →
    extract_image (JDict d) = Ok v.
Proof.
  intros d before part after image_url v Himg Hcontent Hbefore Hty Hiu Hurl.
  assert (Hscan : ∀ fallback,
    scan_content (before ++ JDict part :: after) fallback = Ok v).
  { intros fallback. clear Hcontent.
    induction Hbefore as [|p ps (pd & -> & Hp) _ IH].
    - cbn. rewrite Hty. cbn. rewrite Hiu. cbn. rewrite Hurl. reflexivity.
    - cbn. rewrite Hp. exact IH. }
  unfold extract_image. cbn.
  destruct (assoc "images" d) as [images|]; cbn in *.
  - rewrite Himg. cbn. rewrite Hcontent. cbn. apply Hscan.
  - rewrite Hcontent. cbn. apply Hscan.
Qed.

Lemma extract_image_content_fallback_witness :
  extract_image
    (JDict [("images", JList []);
            ("content",
             JList [JDict [("type", JStr "text"); ("text", JStr "Here it is")];
                    JDict [("type", JStr "image_url");
                           ("image_url", JDict [("url", JStr "data:image/png;base64,aGVsbG8=")])]])])
  = Ok (JStr "data:image/png;base64,aGVsbG8=").
Proof.
  apply (extract_image_content_fallback
           [("images", JList []);
            ("content",
             JList [JDict [("type", JStr "text"); ("text", JStr "Here it is")];
                    JDict [("type", JStr "image_url");
                           ("image_url", JDict [("url", JStr "data:image/png;base64,aGVsbG8=")])]])]
           [JDict [("type", JStr "text"); ("text", JStr "Here it is")]]
           [("type", JStr "image_url");
            ("image_url", JDict [("url", JStr "data:image/png;base64,aGVsbG8=")])]
           [] [("url", JStr "data:image/png;base64,aGVsbG8=")]);
    try reflexivity.
  constructor; [|constructor]. eexists. split; reflexivity.
Defined.

(** ** Adapters: credentials, first answer, recovery *)

(** X13: with [requests] installed, an adapter whose API key is unset or
    empty raises [ValueError] naming the variable, before it reads the
    input image or sends anything. *)
Theorem adapters_missing_key :
  ∀ env prompt model input_image w,
    requests_installed env = true →
    (opt_truthy (OPENROUTER_API_KEY env) = false →
     ∀ aspect_ratio image_size,
       generate_openrouter env prompt model input_image aspect_ratio image_size w
       = (Raise (Exn ValueError "OPENROUTER_API_KEY not set"), w))
    ∧ (opt_truthy (OPENAI_API_KEY env) = false →
       ∀ size quality output_format background,
         generate_openai env prompt model input_image size quality
           output_format background w
         = (Raise (Exn ValueError "OPENAI_API_KEY not set"), w)).
Proof.
  intros env prompt model input_image w Hreq. split.
  - intros Hkey aspect_ratio image_size.
    unfold generate_openrouter, import_requests, require_key. rewrite Hreq. run.
    destruct (OPENROUTER_API_KEY env) as [k|]; [|reflexivity].
    cbn in Hkey. rewrite Hkey. reflexivity.
  - intros Hkey size quality output_format background.
    unfold generate_openai, import_requests, require_key. rewrite Hreq. run.
    destruct (OPENAI_API_KEY env) as [k|]; [|reflexivity].
    cbn in Hkey. rewrite Hkey. reflexivity.
Qed.

Lemma adapters_missing_key_witness :
  generate_openai env_no_keys "a red circle" "gpt-image-1.5" (JStr "missing.png")
    "auto" "auto" "png" "auto" world0
  = (Raise (Exn ValueError "OPENAI_API_KEY not set"), world0).
Proof.
  apply (proj2 (adapters_missing_key env_no_keys "a red circle" "gpt-image-1.5"
                  (JStr "missing.png") world0 eq_refl) eq_refl).
Defined.

Lemma success_not_failure (o : outcome) (r : response) :
  success o = Some r →
  o = PostReturns r ∧ (400 <=? status_code r) && (status_code r <? 600) = false.
Proof.
  destruct o as [e | r']; cbn; [discriminate|].
  destruct (_ && _) eqn:E; [discriminate|]. intros [= <-]. auto.
Qed.

Lemma post_then_status_ok (env : Env) (url : string) (req : request)
    (w : World) (r : response) :
  success (net env (posts w)) = Some r →
  (response ← post env url req; raise_for_status response;; mret response) w
  = (Ok r, sent url req w).
Proof.
  intros Hs. destruct (success_not_failure _ _ Hs) as [Hnet Hst].
  run. unfold post, raise_for_status. rewrite Hnet, Hst. reflexivity.
Qed.

Lemma openrouter_send_ok (env : Env) (payload : json) (w : World) (r : response) :
  success (net env (posts w)) = Some r →
  openrouter_send env payload w
  = (Ok r, sent "https://openrouter.ai/api/v1/chat/completions" (JsonBody payload) w).
Proof. apply post_then_status_ok. Qed.

Lemma openai_send_ok (env : Env) (prompt model : string) (input_image : json)
    (size quality output_format background : string) (w : World) (r : response) :
  input_ready w input_image →
  success (net env (posts w)) = Some r →
  openai_send env prompt model input_image size quality output_format background w
  = (Ok r,
     sent (openai_request prompt model input_image size quality output_format background).1
          (openai_request prompt model input_image size quality output_format background).2 w).
Proof.
  intros Hin Hs. unfold openai_send.
  destruct Hin as [Hfalse | (p & -> & Ht & Hp)].
  - rewrite Hfalse.
    assert (Hreq : openai_request prompt model input_image size quality output_format background
              = ("https://api.openai.com/v1/images/generations",
                 JsonBody (JDict [ ("model", JStr model); ("prompt", JStr prompt);
                            ("size", JStr size); ("quality", JStr quality);
                            ("output_format", JStr output_format);
                            ("background", JStr background); ("n", JNum 1) ]))).
    { unfold openai_request. destruct input_image as [| | |s| |]; try reflexivity.
      cbn in Hfalse. rewrite Hfalse. reflexivity. }
    rewrite Hreq. cbn [fst snd]. by apply post_then_status_ok.
  - rewrite Ht. unfold openai_request. cbn in Ht. rewrite Ht. cbn [fst snd].
    pose proof (post_then_status_ok env "https://api.openai.com/v1/images/edits"
      (Multipart p [("model", model); ("prompt", prompt); ("size", size)]) w r Hs) as Hp'.
    run. unfold as_path, read_b64 in *. run.
    destruct (decide (p ∈ fs w)); [exact Hp' | contradiction].
Qed.

Lemma retry_loop_first_ok (send : M response) (w w1 : World) (r : response) :
  send w = (Ok r, w1) → retry_loop send w = (Ok r, w1).
Proof. intros H. unfold retry_loop. cbn [seq MAX_RETRIES]. by apply retry_attempts_ok. Qed.

(** X14: when the first request gets a response whose status is not an
    error status, each adapter has sent exactly that one request and slept
    not at all when it ends, whatever the body and whatever the outcome: a
    response that cannot be parsed is not retried. *)
Theorem adapters_first_answer_single_request :
  ∀ env w r prompt model input_image,
    requests_installed env = true →
    input_ready w input_image →
    success (net env (posts w)) = Some r →
    (∀ key aspect_ratio image_size,
        OPENROUTER_API_KEY env = Some key → PyStr.nonempty key = true →
        ∃ res req,
          generate_openrouter env prompt model input_image aspect_ratio image_size w
          = (res, sent "https://openrouter.ai/api/v1/chat/completions" req w))
    ∧ (∀ key size quality output_format background,
        OPENAI_API_KEY env = Some key → PyStr.nonempty key = true →
        ∃ res,
          generate_openai env prompt model input_image size quality
            output_format background w
          = (res,
             sent (openai_request prompt model input_image size quality
                     output_format background).1
                  (openai_request prompt model input_image size quality
                     output_format background).2 w)).
Proof.
  intros env w r prompt model input_image Hreq Hin Hs. split.
  - intros key aspect_ratio image_size Hkey Hne.
    destruct (image_content_ready env input_image w Hin) as [part Hpart].
    unfold generate_openrouter, import_requests. rewrite Hreq, Hkey.
    change (mret () ≫= ?f) with (f ()). cbv beta.
    set (payload := openrouter_payload model
           (part ++ [JDict [("type", JStr "text"); ("text", JStr prompt)]])
           aspect_ratio image_size).
    assert (Hloop : retry_loop (openrouter_send env payload) w
                    = (Ok r, sent "https://openrouter.ai/api/v1/chat/completions"
                               (JsonBody payload) w))
      by (apply retry_loop_first_ok, openrouter_send_ok, Hs).
    run. rewrite (require_key_set key _ w Hne), Hpart. fold payload. rewrite Hloop.
    unfold response_json.
    destruct (body r) as [v|]; run; [|by do 2 eexists].
    match goal with
    | |- context [match ?x with Ok _ => _ | Raise _ => _ end] => destruct x
    end; by do 2 eexists.
  - intros key size quality output_format background Hkey Hne.
    unfold generate_openai, import_requests. rewrite Hreq, Hkey.
    run. rewrite (require_key_set key _ w Hne).
    rewrite (retry_loop_first_ok _ _ _ _
               (openai_send_ok env prompt model input_image size quality
                  output_format background w r Hin Hs)).
    unfold response_json. destruct (body r) as [v|]; run; by eexists.
Qed.

Lemma adapters_first_answer_single_request_witness :
  ∃ res,
    generate_openai (env_up body_image) "a red circle" "gpt-image-1.5" JNull
      "auto" "auto" "png" "auto" world0
    = (res,
       sent (openai_request "a red circle" "gpt-image-1.5" JNull "auto" "auto" "png" "auto").1
            (openai_request "a red circle" "gpt-image-1.5" JNull "auto" "auto" "png" "auto").2
            world0).
Proof.
  apply (proj2 (adapters_first_answer_single_request (env_up body_image) world0
                  (Response 200 (Some body_image)) "a red circle" "gpt-image-1.5" JNull
                  eq_refl (or_introl eq_refl) eq_refl)
           "sk-test" "auto" "auto" "png" "auto" eq_refl eq_refl).
Defined.

(** X15: from a response with a non-error status whose body is an object,
    the image API adapter returns the "b64_json" of the first element of
    "data"; it raises [KeyError] when "data" is missing and [IndexError]
    when "data" is an empty list. *)
Theorem generate_openai_result :
  ∀ env w r d prompt model input_image key size quality output_format background,
    requests_installed env = true →
    OPENAI_API_KEY env = Some key → PyStr.nonempty key = true →
    input_ready w input_image →
    success (net env (posts w)) = Some r →
    body r = Some (JDict d) →
    let run := generate_openai env prompt model input_image size quality
                 output_format background w in
    (∀ first rest v,
        assoc "data" d = Some (JList (JDict first :: rest)) →
        assoc "b64_json" first = Some v → run.1 = Ok v)
    ∧ (assoc "data" d = None → run.1 = Raise (Exn KeyError "data"))
    ∧ (assoc "data" d = Some (JList []) →
       run.1 = Raise (Exn IndexError "list index out of range")).
Proof.
  intros env w r d prompt model input_image key size quality output_format background
    Hreq Hkey Hne Hin Hs Hbody run0.
  assert (Hrun : run0.1 = (data ← getitem (JDict d) "data"; first ← getidx data 0;
                           getitem first "b64_json")).
  { subst run0. unfold generate_openai, import_requests. rewrite Hreq, Hkey.
    run. rewrite (require_key_set key _ w Hne).
    rewrite (retry_loop_first_ok _ _ _ _
               (openai_send_ok env prompt model input_image size quality
                  output_format background w r Hin Hs)).
    unfold response_json. rewrite Hbody. reflexivity. }
  rewrite Hrun. cbn. split; [|split].
  - intros first rest v Hdata Hb. rewrite Hdata. cbn. rewrite Hb. reflexivity.
  - intros ->. reflexivity.
  - intros ->. reflexivity.
Qed.

Lemma generate_openai_result_witness :
  (generate_openai (env_up body_image) "a red circle" "gpt-image-1.5" JNull
     "auto" "auto" "png" "auto" world0).1
  = Ok (JStr "aGVsbG8=").
Proof.
  apply (proj1 (generate_openai_result (env_up body_image) world0
                  (Response 200 (Some body_image))
                  [("data", JList [JDict [("b64_json", JStr "aGVsbG8=")]])]
                  "a red circle" "gpt-image-1.5" JNull "sk-test" "auto" "auto" "png" "auto"
                  eq_refl eq_refl eq_refl (or_introl eq_refl) eq_refl eq_refl)
           [("b64_json", JStr "aGVsbG8=")] [] (JStr "aGVsbG8=") eq_refl eq_refl).
Defined.

(** Two failed attempts, then an answer. *)
Lemma retry_loop_recovers (send : M response) (w w1 w2 w3 : World)
    (e0 e1 : exn) (r : response) :
  send w = (Raise e0, w1) → is_RequestException e0 = true →
  send (logged (EvSleep 1) w1) = (Raise e1, w2) → is_RequestException e1 = true →
  send (logged (EvSleep 2) w2) = (Ok r, w3) →
  retry_loop send w = (Ok r, w3).
Proof.
  intros H0 R0 H1 R1 H2. unfold retry_loop. cbn [seq MAX_RETRIES].
  rewrite (retry_attempts_raise _ _ _ _ _ _ H0), R0. cbn [Nat.ltb Nat.leb Nat.sub MAX_RETRIES].
  change (RETRY_BACKOFF_BASE ^ 0) with 1.
  rewrite (retry_attempts_raise _ _ _ _ _ _ H1), R1. cbn [Nat.ltb Nat.leb Nat.sub MAX_RETRIES].
  change (RETRY_BACKOFF_BASE ^ 1) with 2.
  by apply retry_attempts_ok.
Qed.

Lemma retry_loop_post_recovers (env : Env) (send : M response)
    (url : string) (req : request) (w : World) (e0 e1 : exn) (r : response) :
  (∀ w' e, fs w' = fs w → failure (net env (posts w')) = Some e →
           send w' = (Raise e, sent url req w')) →
  (∀ w' r', fs w' = fs w → success (net env (posts w')) = Some r' →
            send w' = (Ok r', sent url req w')) →
  failure (net env (posts w)) = Some e0 →
  failure (net env (posts w + 1)) = Some e1 →
  success (net env (posts w + 2)) = Some r →
  retry_loop send w = (Ok r, exhausted url req w).
Proof.
  intros Hfail Hok F0 F1 S2. rewrite <- three_rounds.
  replace (posts w + 1) with (S (posts w)) in F1 by lia.
  replace (posts w + 2) with (S (S (posts w))) in S2 by lia.
  eapply retry_loop_recovers.
  - apply Hfail; [reflexivity | exact F0].
  - eapply failure_is_request, F0.
  - apply Hfail; [reflexivity | exact F1].
  - eapply failure_is_request, F1.
  - apply Hok; [reflexivity | exact S2].
Qed.

(** X16: when the first two attempts fail the way the loop retries and
    the third gets a response with a non-error status, the image API
    adapter returns the image of that response after exactly three
    requests with the same payload and sleeps of 1 and 2 seconds. *)
Theorem generate_openai_recovers :
  ∀ env w e0 e1 r d first rest v prompt model input_image key size quality
    output_format background,
    requests_installed env = true →
    OPENAI_API_KEY env = Some key → PyStr.nonempty key = true →
    input_ready w input_image →
    failure (net env (posts w)) = Some e0 →
    failure (net env (posts w + 1)) = Some e1 →
    success (net env (posts w + 2)) = Some r →
    body r = Some (JDict d) →
    assoc "data" d = Some (JList (JDict first :: rest)) →
    assoc "b64_json" first = Some v →
    generate_openai env prompt model input_image size quality output_format background w
    = (Ok v,
       exhausted
         (openai_request prompt model input_image size quality output_format background).1
         (openai_request prompt model input_image size quality output_format background).2
         w).
Proof.
  intros env w e0 e1 r d first rest v prompt model input_image key size quality
    output_format background Hreq Hkey Hne Hin F0 F1 S2 Hbody Hdata Hb.
  unfold generate_openai, import_requests. rewrite Hreq, Hkey.
  run. rewrite (require_key_set key _ w Hne).
  erewrite (retry_loop_post_recovers env _
    (openai_request prompt model input_image size quality output_format background).1
    (openai_request prompt model input_image size quality output_format background).2);
    [ | | | eassumption..].
  - unfold response_json. rewrite Hbody. run. cbn. rewrite Hdata. cbn.
    rewrite Hb. reflexivity.
  - intros w' e Hfs. apply openai_send_fails. by apply (input_ready_fs w).
  - intros w' r' Hfs. apply openai_send_ok. by apply (input_ready_fs w).
Qed.

Lemma generate_openai_recovers_witness :
  generate_openai (env_flaky body_image) "a red circle" "gpt-image-1.5" JNull
    "auto" "auto" "png" "auto" world0
  = (Ok (JStr "aGVsbG8="),
     exhausted
       (openai_request "a red circle" "gpt-image-1.5" JNull "auto" "auto" "png" "auto").1
       (openai_request "a red circle" "gpt-image-1.5" JNull "auto" "auto" "png" "auto").2
       world0).
Proof.
  apply (generate_openai_recovers (env_flaky body_image) world0
           (Exn RequestException "connection refused #0")
           (Exn RequestException "connection refused #1")
           (Response 200 (Some body_image))
           [("data", JList [JDict [("b64_json", JStr "aGVsbG8=")]])]
           [("b64_json", JStr "aGVsbG8=")] [] (JStr "aGVsbG8=")
           "a red circle" "gpt-image-1.5" JNull "sk-test" "auto" "auto" "png" "auto"
           eq_refl eq_refl eq_refl (or_introl eq_refl)
           eq_refl eq_refl eq_refl eq_refl eq_refl eq_refl).
Defined.

(** ** Requests of one invocation *)

Lemma sends_steady {A} (m : M A) : Steady m → SendsAtMost 0 m.
Proof. intros H w r w' Hm. rewrite (H _ _ _ Hm). lia. Qed.

Lemma sends_weaken {A} (n k : nat) (m : M A) :
  SendsAtMost n m → n ≤ k → SendsAtMost k m.
Proof. intros H Hle w r w' Hm. specialize (H _ _ _ Hm). lia. Qed.

Lemma sends_bind {A B} (a b : nat) (m : M A) (f : A → M B) :
  SendsAtMost a m → (∀ x, SendsAtMost b (f x)) → SendsAtMost (a + b) (m ≫= f).
Proof.
  intros Hm Hf w r w' H. run.
  destruct (m w) as [[x | e] w1] eqn:E; specialize (Hm _ _ _ E).
  - specialize (Hf x _ _ _ H). lia.
  - injection H as _ <-. lia.
Qed.

Lemma sends_try {A} (a b : nat) (m : M A) (h : exn → M A) :
  SendsAtMost a m → (∀ e, SendsAtMost b (h e)) → SendsAtMost (a + b) (try_except m h).
Proof.
  intros Hm Hh w r w' H. unfold try_except in H.
  destruct (m w) as [[x | e] w1] eqn:E; specialize (Hm _ _ _ E).
  - injection H as _ <-. lia.
  - specialize (Hh e _ _ _ H). lia.
Qed.

Lemma sends_emit (ev : event) : SendsAtMost 0 (emit ev).
Proof. intros w r w' [= _ <-]. cbn. lia. Qed.

Lemma sends_post (env : Env) (url : string) (req : request) :
  SendsAtMost 1 (post env url req).
Proof.
  intros w r w' H. unfold post in H.
  destruct (net env (posts w)); injection H as _ <-; cbn; lia.
Qed.

Lemma sends_create_file (path : string) : SendsAtMost 0 (create_file path).
Proof. intros w r w' [= _ <-]. cbn. lia. Qed.

Lemma sends_save_session (session : gmap string json) :
  SendsAtMost 0 (save_session session).
Proof. intros w r w' [= _ <-]. cbn. lia. Qed.

Lemma sends_retry_attempts (send : M response) (attempts : list nat) :
  SendsAtMost 1 send → SendsAtMost (length attempts) (retry_attempts send attempts).
Proof.
  intros Hs. induction attempts as [|a rest IH]; cbn [retry_attempts length].
  - apply sends_steady, _.
  - apply (sends_try 1 (length rest)); [exact Hs | intros e].
    destruct (is_RequestException e); [|apply sends_weaken with 0; [apply sends_steady, _ | lia]].
    destruct (a <? MAX_RETRIES - 1); [|apply sends_weaken with 0; [apply sends_steady, _ | lia]].
    apply (sends_bind 0 (length rest)); [apply sends_emit | intros _; exact IH].
Qed.

Lemma sends_openrouter_send (env : Env) (payload : json) :
  SendsAtMost 1 (openrouter_send env payload).
Proof.
  unfold openrouter_send. apply (sends_bind 1 0); [apply sends_post | intros r].
  apply sends_steady, _.
Qed.

Lemma sends_openai_send env prompt model input size quality fmt bg :
  SendsAtMost 1 (openai_send env prompt model input size quality fmt bg).
Proof.
  unfold openai_send. apply (sends_bind 1 0); [|intros r; apply sends_steady, _].
  destruct (truthy input); [|apply sends_post].
  apply (sends_bind 0 1); [apply sends_steady, _ | intros path].
  apply (sends_bind 0 1); [apply sends_steady, _ | intros _]. apply sends_post.
Qed.

Lemma sends_generate_openrouter env prompt model input aspect_ratio image_size :
  SendsAtMost MAX_RETRIES
    (generate_openrouter env prompt model input aspect_ratio image_size).
Proof.
  unfold generate_openrouter.
  apply (sends_bind 0 3); [apply sends_steady, _ | intros _].
  apply (sends_bind 0 3); [apply sends_steady, _ | intros key].
  apply (sends_bind 0 3); [apply sends_steady, _ | intros part].
  apply (sends_bind 3 0); [|intros r; apply sends_steady, _].
  apply (sends_retry_attempts _ (seq 0 MAX_RETRIES)), sends_openrouter_send.
Qed.

Lemma sends_generate_openai env prompt model input size quality fmt bg :
  SendsAtMost MAX_RETRIES (generate_openai env prompt model input size quality fmt bg).
Proof.
  unfold generate_openai.
  apply (sends_bind 0 3); [apply sends_steady, _ | intros _].
  apply (sends_bind 0 3); [apply sends_steady, _ | intros key].
  apply (sends_bind 3 0); [|intros r; apply sends_steady, _].
  apply (sends_retry_attempts _ (seq 0 MAX_RETRIES)), sends_openai_send.
Qed.

Lemma sends_save_image env data dir prefix :
  SendsAtMost 0 (save_image env data dir prefix).
Proof.
  unfold save_image.
  apply (sends_bind 0 0); [destruct data; apply sends_steady, _ | intros s].
  apply (sends_bind 0 0); [apply sends_steady, _ | intros [ext d]].
  apply (sends_bind 0 0); [apply sends_steady, _ | intros existing].
  apply (sends_bind 0 0); [apply sends_create_file | intros _].
  apply sends_steady, _.
Qed.

Lemma sends_generate env prompt model_alias input_image output_dir aspect_ratio
    image_size size transparent fast :
  SendsAtMost MAX_RETRIES
    (generate env prompt model_alias input_image output_dir aspect_ratio
       image_size size transparent fast).
Proof.
  unfold generate.
  apply (sends_bind 0 3); [apply sends_steady, _ | intros session].
  apply (sends_bind 0 3); [apply sends_steady, _ | intros alias].
  apply (sends_bind 0 3); [apply sends_steady, _ | intros [out session']].
  apply (sends_bind 3 0).
  { destruct (PyStr.startswith "gpt-" alias);
      [apply sends_generate_openai | apply sends_generate_openrouter]. }
  intros data.
  apply (sends_bind 0 0); [apply sends_save_image | intros saved].
  apply (sends_bind 0 0); [apply sends_steady, _ | intros session''].
  apply (sends_bind 0 0); [apply sends_save_session | intros _].
  apply sends_steady, _.
Qed.

(** X17: whatever the command, the network and the outcome, one
    invocation sends at most [MAX_RETRIES] requests. *)
Theorem main_sends_at_most :
  ∀ env cmd w,
    posts w ≤ posts (main env cmd w).2 ≤ posts w + MAX_RETRIES.
Proof.
  intros env cmd w.
  assert (H : SendsAtMost MAX_RETRIES (run_command env cmd)).
  { destruct cmd; cbn [run_command].
    - apply (sends_bind 3 0); [apply sends_generate | intros _; apply sends_steady, _].
    - apply (sends_bind 3 0); [apply sends_generate | intros _; apply sends_steady, _].
    - intros w0 r w' [= _ <-]. cbn. lia.
    - apply (sends_bind 0 3); [apply sends_steady, _ | intros session].
      apply sends_weaken with 0; [apply sends_save_session | lia]. }
  unfold main. destruct (run_command env cmd w) as [[u | e] w'] eqn:E;
    exact (H _ _ _ E).
Qed.

(** ** Provider routing *)

Lemma bind_inv {A B} (m : M A) (f : A → M B) (w w' : World) (r : result B) :
  (m ≫= f) w = (r, w') →
  (∃ a w1, m w = (Ok a, w1) ∧ f a w1 = (r, w'))
  ∨ (∃ e, m w = (Raise e, w') ∧ r = Raise e).
Proof.
  intros H. run. destruct (m w) as [[a | e] w1]; [left; eauto|].
  injection H as <- <-. right; eauto.
Qed.

Lemma logs_steady {A} (P : event → Prop) (m : M A) : Steady m → Logs P m.
Proof.
  intros H w r w' Hm. rewrite (H _ _ _ Hm). exists []. by rewrite app_nil_r.
Qed.

Lemma logs_bind {A B} (P : event → Prop) (m : M A) (f : A → M B) :
  Logs P m → (∀ x, Logs P (f x)) → Logs P (m ≫= f).
Proof.
  intros Hm Hf w r w' H. run.
  destruct (m w) as [[x | e] w1] eqn:E; destruct (Hm _ _ _ E) as (evs1 & Ht1 & HP1).
  - destruct (Hf x _ _ _ H) as (evs2 & Ht2 & HP2).
    exists (evs1 ++ evs2). rewrite Ht2, Ht1, app_assoc.
    split; [reflexivity | by apply Forall_app].
  - injection H as _ <-. eauto.
Qed.

Lemma logs_try {A} (P : event → Prop) (m : M A) (h : exn → M A) :
  Logs P m → (∀ e, Logs P (h e)) → Logs P (try_except m h).
Proof.
  intros Hm Hh w r w' H. unfold try_except in H.
  destruct (m w) as [[x | e] w1] eqn:E; destruct (Hm _ _ _ E) as (evs1 & Ht1 & HP1).
  - injection H as _ <-. eauto.
  - destruct (Hh e _ _ _ H) as (evs2 & Ht2 & HP2).
    exists (evs1 ++ evs2). rewrite Ht2, Ht1, app_assoc.
    split; [reflexivity | by apply Forall_app].
Qed.

Lemma logs_emit (P : event → Prop) (ev : event) : P ev → Logs P (emit ev).
Proof. intros HP w r w' [= _ <-]. exists [ev]. split; [reflexivity | by constructor]. Qed.

Lemma logs_post (P : event → Prop) (env : Env) (url : string) (req : request) :
  P (EvPost url req) → Logs P (post env url req).
Proof.
  intros HP w r w' H. unfold post in H. exists [EvPost url req].
  destruct (net env (posts w)); injection H as _ <-;
    (split; [reflexivity | by constructor]).
Qed.

Lemma logs_silent {A} (P : event → Prop) (m : M A) :
  (∀ w r w', m w = (r, w') → trace w' = trace w) → Logs P m.
Proof. intros H w r w' Hm. exists []. by rewrite app_nil_r, (H _ _ _ Hm). Qed.

Lemma logs_retry_attempts (P : event → Prop) (send : M response) (attempts : list nat) :
  P (EvSleep 1) → P (EvSleep 2) → Logs P send → Logs P (retry_attempts send attempts).
Proof.
  intros H1 H2 Hs. induction attempts as [|a rest IH]; cbn [retry_attempts].
  - apply logs_steady, _.
  - apply logs_try; [exact Hs | intros e].
    destruct (is_RequestException e); [|apply logs_steady, _].
    destruct (a <? MAX_RETRIES - 1) eqn:Ha; [|apply logs_steady, _].
    apply logs_bind; [|intros _; exact IH].
    apply logs_emit. apply Nat.ltb_lt in Ha. unfold MAX_RETRIES in Ha.
    destruct a as [|[|a]]; [exact H1 | exact H2 | lia].
Qed.

Lemma logs_generate_openrouter env prompt model input aspect_ratio image_size :
  Logs (provider_event false)
    (generate_openrouter env prompt model input aspect_ratio image_size).
Proof.
  unfold generate_openrouter.
  apply logs_bind; [apply logs_steady, _ | intros _].
  apply logs_bind; [apply logs_steady, _ | intros key].
  apply logs_bind; [apply logs_steady, _ | intros part].
  apply logs_bind; [|intros r; apply logs_steady, _].
  apply logs_retry_attempts; [by left | by right |].
  unfold openrouter_send.
  apply logs_bind; [by apply logs_post | intros r; apply logs_steady, _].
Qed.

Lemma logs_generate_openai env prompt model input size quality fmt bg :
  Logs (provider_event true)
    (generate_openai env prompt model input size quality fmt bg).
Proof.
  unfold generate_openai.
  apply logs_bind; [apply logs_steady, _ | intros _].
  apply logs_bind; [apply logs_steady, _ | intros key].
  apply logs_bind; [|intros r; apply logs_steady, _].
  apply logs_retry_attempts; [by left | by right |].
  unfold openai_send.
  apply logs_bind; [|intros r; apply logs_steady, _].
  destruct (truthy input); [|apply logs_post; by right].
  apply logs_bind; [apply logs_steady, _ | intros path].
  apply logs_bind; [apply logs_steady, _ | intros _].
  apply logs_post. by left.
Qed.

Lemma logs_save_image (P : event → Prop) env data dir prefix :
  Logs P (save_image env data dir prefix).
Proof.
  unfold save_image.
  apply logs_bind; [destruct data; apply logs_steady, _ | intros s].
  apply logs_bind; [apply logs_steady, _ | intros [ext d]].
  apply logs_bind; [apply logs_steady, _ | intros existing].
  apply logs_bind; [|intros _; apply logs_steady, _].
  apply logs_silent. by intros w r w' [= _ <-].
Qed.

(** X18: the provider is chosen by the name of the resolved alias alone:
    a run of [generate] whose alias starts with "gpt-" adds to the trace
    only requests to the two image API endpoints, any other alias only
    requests to the chat endpoint; besides requests, the trace gains only
    sleeps of 1 or 2 seconds, and nothing is ever removed from it. *)
Theorem generate_routes_by_prefix :
  ∀ env prompt model_alias input_image output_dir aspect_ratio image_size size
    transparent fast alias w r w',
    resolve_model prompt model_alias image_size transparent fast w = (Ok alias, w) →
    generate env prompt model_alias input_image output_dir aspect_ratio
      image_size size transparent fast w = (r, w') →
    ∃ evs, trace w' = trace w ++ evs
           ∧ Forall (provider_event (PyStr.startswith "gpt-" alias)) evs.
Proof.
  intros env prompt model_alias input_image output_dir aspect_ratio image_size size
    transparent fast alias w r w' Halias Hgen.
  unfold generate in Hgen.
  apply bind_inv in Hgen as [(session & w1 & Hload & Hgen) | (e & Hload & _)];
    pose proof (steady _ _ _ Hload) as ->;
    [|exists []; by rewrite app_nil_r].
  apply bind_inv in Hgen as [(alias' & w1 & Ha & Hgen) | (e & Ha & _)];
    rewrite Halias in Ha; [|discriminate].
  injection Ha as <- <-.
  match type of Hgen with
  | ?m w = _ => assert (HL : Logs (provider_event (PyStr.startswith "gpt-" alias)) m)
  end; [|exact (HL _ _ _ Hgen)].
  apply logs_bind; [apply logs_steady, _ | intros [out session0]].
  apply logs_bind.
  { destruct (PyStr.startswith "gpt-" alias);
      [apply logs_generate_openai | apply logs_generate_openrouter]. }
  intros data.
  apply logs_bind; [apply logs_save_image | intros saved].
  apply logs_bind; [apply logs_steady, _ | intros session''].
  apply logs_bind; [|intros _; apply logs_steady, _].
  apply logs_silent. by intros w0 r0 w0' [= _ <-].
Qed.

Lemma generate_routes_by_prefix_witness :
  ∃ evs,
    trace (generate env_down "a red circle" (Some "gpt-image-1.5") None None None None
             "auto" false false world0).2 = trace world0 ++ evs
    ∧ Forall (provider_event (PyStr.startswith "gpt-" "gpt-image-1.5")) evs.
Proof.
  apply (generate_routes_by_prefix env_down "a red circle" (Some "gpt-image-1.5")
           None None None None "auto" false false "gpt-image-1.5" world0
           (generate env_down "a red circle" (Some "gpt-image-1.5") None None None None
              "auto" false false world0).1 _ eq_refl).
  apply surjective_pairing.
Defined.

(** ** The session after a generation *)

Lemma resolve_output_dir_other_keys (env : Env) (output_dir : option string)
    (session session' : gmap string json) (out : string) (w w1 : World) (k : string) :
  resolve_output_dir env output_dir session w = (Ok (out, session'), w1) →
  k ≠ "output_dir" → session' !! k = session !! k.
Proof.
  unfold resolve_output_dir. intros H Hk. destruct (opt_truthy output_dir).
  - injection H as _ <- _. by apply lookup_insert_ne.
  - destruct (truthy (session_get session "output_dir")).
    + destruct (session_get session "output_dir"); try discriminate.
      by injection H as _ <- _.
    + injection H as _ <- _. by apply lookup_insert_ne.
Qed.

Lemma resolve_input_image_same (input_image : option string)
    (session session' : gmap string json) :
  session' !! "current_image" = session !! "current_image" →
  resolve_input_image input_image session' = resolve_input_image input_image session.
Proof. intros H. unfold resolve_input_image, session_get. by rewrite H. Qed.

(** What a generation that returns has gone through. *)
Lemma generate_Ok_inv env prompt model_alias input_image output_dir aspect_ratio
    image_size size transparent fast w path w' :
  generate env prompt model_alias input_image output_dir aspect_ratio
    image_size size transparent fast w = (Ok path, w') →
  ∃ session alias out session' data w1 saved,
    load_session w = (Ok session, w)
    ∧ resolve_model prompt model_alias image_size transparent fast w = (Ok alias, w)
    ∧ resolve_output_dir env output_dir session w = (Ok (out, session'), w)
    ∧ session_file w1 = session_file w
    ∧ save_image env data out "gen" w1 = (Ok path, with_file path w1)
    ∧ append_history
        (history_record prompt alias (resolve_input_image input_image session')
           path (now_iso env))
        (<["current_image" := JStr path]> session') (with_file path w1)
      = (Ok saved, with_file path w1)
    ∧ w' = {| session_file := Some saved; fs := fs (with_file path w1);
              posts := posts w1; trace := trace w1 |}.
Proof.
  intros Hgen. unfold generate in Hgen.
  apply bind_Ok_inv in Hgen as (session & w0 & Hload & Hgen).
  pose proof (steady _ _ _ Hload) as ->.
  apply bind_Ok_inv in Hgen as (alias & w0 & Halias & Hgen).
  pose proof (steady _ _ _ Halias) as ->.
  apply bind_Ok_inv in Hgen as ([out session'] & w0 & Hout & Hgen).
  pose proof (steady _ _ _ Hout) as ->.
  apply bind_Ok_inv in Hgen as (data & w1 & Hdata & Hgen).
  apply bind_Ok_inv in Hgen as (saved_path & w2 & Hsave & Hgen).
  apply bind_Ok_inv in Hgen as (saved & w3 & Hhist & Hgen).
  pose proof (steady _ _ _ Hhist) as ->.
  apply bind_Ok_inv in Hgen as (u & w4 & Hss & Hgen).
  injection Hgen as <- <-.
  destruct (save_image_Ok_inv _ _ _ _ _ _ _ Hsave) as (_ & _ & _ & _ & _ & _ & _ & ->).
  exists session, alias, out, session', data, w1, saved.
  repeat split; try assumption.
  - destruct (PyStr.startswith "gpt-" alias); exact (keeps_session _ _ _ Hdata).
  - unfold save_session in Hss. by injection Hss as <-.
Qed.

(** X19: after a generation that returns, the file it returns exists, the
    session file has been written with that path as "current_image" and
    with one record appended to the history that was loaded (the prompt,
    the alias used, the input image, the path, the time), and every key
    other than "current_image", "history" and "output_dir" is as loaded. *)
Theorem generate_success_updates_session :
  ∀ env prompt model_alias input_image output_dir aspect_ratio image_size size
    transparent fast w path w',
    generate env prompt model_alias input_image output_dir aspect_ratio
      image_size size transparent fast w = (Ok path, w') →
    ∃ session alias history saved,
      load_session w = (Ok session, w)
      ∧ resolve_model prompt model_alias image_size transparent fast w = (Ok alias, w)
      ∧ session !! "history" = Some (JList history)
      ∧ path ∈ fs w'
      ∧ session_file w' = Some saved
      ∧ saved !! "current_image" = Some (JStr path)
      ∧ saved !! "history"
        = Some (JList (history ++
            [history_record prompt alias (resolve_input_image input_image session)
               path (now_iso env)]))
      ∧ ∀ k, k ≠ "current_image" → k ≠ "history" → k ≠ "output_dir" →
             saved !! k = session !! k.
Proof.
  intros env prompt model_alias input_image output_dir aspect_ratio image_size size
    transparent fast w path w' Hgen.
  destruct (generate_Ok_inv _ _ _ _ _ _ _ _ _ _ _ _ _ Hgen)
    as (session & alias & out & session' & data & w1 & saved
        & Hload & Halias & Hout & _ & _ & Hhist & ->).
  assert (Hkeys : ∀ k, k ≠ "output_dir" → session' !! k = session !! k)
    by (intros k; exact (resolve_output_dir_other_keys _ _ _ _ _ _ _ k Hout)).
  rewrite (resolve_input_image_same input_image session session') in Hhist
    by (by apply Hkeys).
  unfold append_history in Hhist.
  rewrite lookup_insert_ne, Hkeys in Hhist by discriminate.
  destruct (session !! "history") as [[| | | |history|]|] eqn:Hh; try discriminate.
  injection Hhist as <-.
  exists session, alias, history,
    (<["history" := JList (history ++
        [history_record prompt alias (resolve_input_image input_image session)
           path (now_iso env)])]> (<["current_image" := JStr path]> session')).
  split; [exact Hload|]. split; [exact Halias|]. split; [exact Hh|].
  split; [cbn; set_solver|]. split; [reflexivity|].
  split; [rewrite lookup_insert_ne by discriminate; apply lookup_insert_eq|].
  split; [apply lookup_insert_eq|].
  intros k Hc Hh' Ho. rewrite !lookup_insert_ne by congruence. by apply Hkeys.
Qed.

Lemma generate_success_updates_session_witness :
  ∃ session alias history saved,
    load_session world0 = (Ok session, world0)
    ∧ resolve_model "a red circle" (Some "gpt-image-1.5") None false false world0
      = (Ok alias, world0)
    ∧ session !! "history" = Some (JList history)
    ∧ "/proj/generated-images/gen_20250101_120000_001.png"
        ∈ fs (generate (env_up body_image) "a red circle" (Some "gpt-image-1.5")
                None None None None "auto" false false world0).2
    ∧ session_file (generate (env_up body_image) "a red circle" (Some "gpt-image-1.5")
                      None None None None "auto" false false world0).2 = Some saved
    ∧ saved !! "current_image"
      = Some (JStr "/proj/generated-images/gen_20250101_120000_001.png")
    ∧ saved !! "history"
      = Some (JList (history ++
          [history_record "a red circle" alias (resolve_input_image None session)
             "/proj/generated-images/gen_20250101_120000_001.png"
             (now_iso (env_up body_image))]))
    ∧ ∀ k, k ≠ "current_image" → k ≠ "history" → k ≠ "output_dir" →
           saved !! k = session !! k.
Proof.
  apply (generate_success_updates_session (env_up body_image) "a red circle"
           (Some "gpt-image-1.5") None None None None "auto" false false world0).
  vm_compute. reflexivity.
Defined.

(** X20: the file of a generation that returns is an entry (the string of
    [dir / name]) of the directory given on the command line (resolved)
    when one is given; else of the directory the session remembers when it
    remembers one; else of [generated-images] under the working directory.
    Its name starts with "gen_" and the timestamp. *)
Theorem generate_output_location :
  ∀ env prompt model_alias input_image output_dir aspect_ratio image_size size
    transparent fast w session path w',
    load_session w = (Ok session, w) →
    generate env prompt model_alias input_image output_dir aspect_ratio
      image_size size transparent fast w = (Ok path, w') →
    let under dir :=
      ∃ name, path = PyPath.joinpath dir name
              ∧ PyStr.startswith ("gen" +:+ "_" +:+ now_stamp env +:+ "_") name = true in
    (∀ d, output_dir = Some d → PyStr.nonempty d = true → under (resolve env d))
    ∧ (∀ d, opt_truthy output_dir = false →
            session !! "output_dir" = Some (JStr d) → PyStr.nonempty d = true →
            under d)
    ∧ (opt_truthy output_dir = false →
       truthy (session_get session "output_dir") = false →
       under (PyPath.joinpath (cwd env) "generated-images")).
Proof.
  intros env prompt model_alias input_image output_dir aspect_ratio image_size size
    transparent fast w session path w' Hload Hgen under.
  destruct (generate_Ok_inv _ _ _ _ _ _ _ _ _ _ _ _ _ Hgen)
    as (session0 & alias & out & session' & data & w1 & saved
        & Hload' & _ & Hout & _ & Hsave & _ & _).
  rewrite Hload in Hload'. injection Hload' as <-.
  assert (Hunder : under out).
  { destruct (save_image_Ok_inv _ _ _ _ _ _ _ Hsave) as (s & ext & payload & _ & _ & _ & Hp & _).
    unfold under. eexists. split; [exact Hp | apply startswith_app]. }
  unfold resolve_output_dir in Hout. split; [|split].
  - intros d -> Hd. cbn in Hout. rewrite Hd in Hout. by injection Hout as <- _.
  - intros d Hnone Hs Hd. rewrite Hnone in Hout. unfold session_get in Hout.
    rewrite Hs in Hout. cbn in Hout. rewrite Hd in Hout. by injection Hout as <- _.
  - intros Hnone Hs. rewrite Hnone, Hs in Hout. by injection Hout as <- _.
Qed.

Lemma generate_output_location_witness :
  ∃ name,
    "/generated-images/gen_20250101_120000_001.png"
    = PyPath.joinpath (PyPath.joinpath (cwd env_root) "generated-images") name
    ∧ PyStr.startswith ("gen" +:+ "_" +:+ now_stamp env_root +:+ "_") name = true.
Proof.
  apply (proj2 (proj2 (generate_output_location env_root "a red circle"
           (Some "gpt-image-1.5") None None None None "auto" false false world0
           default_session "/generated-images/gen_20250101_120000_001.png"
           (generate env_root "a red circle" (Some "gpt-image-1.5")
              None None None None "auto" false false world0).2
           eq_refl ltac:(vm_compute; reflexivity))) eq_refl eq_refl).
Defined.

(** X21: when the session file holds no list under "history", no
    generation returns: whatever the network answers, [generate] raises
    and the session file stays as it was. *)
Theorem generate_without_history_fails :
  ∀ env prompt model_alias input_image output_dir aspect_ratio image_size size
    transparent fast w session r w',
    session_file w = Some session →
    (∀ h, session !! "history" ≠ Some (JList h)) →
    generate env prompt model_alias input_image output_dir aspect_ratio
      image_size size transparent fast w = (r, w') →
    (∃ e, r = Raise e) ∧ session_file w' = Some session.
Proof.
  intros env prompt model_alias input_image output_dir aspect_ratio image_size size
    transparent fast w session r w' Hfile Hnot Hgen.
  destruct r as [path | e].
  - exfalso.
    destruct (generate_Ok_inv _ _ _ _ _ _ _ _ _ _ _ _ _ Hgen)
      as (session0 & alias & out & session' & data & w1 & saved
          & Hload & _ & Hout & _ & _ & Hhist & _).
    unfold load_session in Hload. rewrite Hfile in Hload. injection Hload as <-.
    unfold append_history in Hhist.
    rewrite lookup_insert_ne in Hhist by discriminate.
    rewrite (resolve_output_dir_other_keys _ _ _ _ _ _ _ "history" Hout) in Hhist
      by discriminate.
    destruct (session !! "history") as [[| | | |h|]|] eqn:Hh; try discriminate.
    by apply (Hnot h).
  - split; [by exists e|]. rewrite <- Hfile. exact (keeps_on_raise _ _ _ Hgen).
Qed.

Lemma generate_without_history_fails_witness :
  (∃ e, (generate (env_up body_image) "a red circle" (Some "gpt-image-1.5")
           None None None None "auto" false false world_no_history).1 = Raise e)
  ∧ session_file (generate (env_up body_image) "a red circle" (Some "gpt-image-1.5")
                    None None None None "auto" false false world_no_history).2
    = Some (<["current_image" := JNull]> (<["output_dir" := JNull]> ∅)).
Proof.
  apply (generate_without_history_fails (env_up body_image) "a red circle"
           (Some "gpt-image-1.5") None None None None "auto" false false
           world_no_history _ _ _ eq_refl).
  - intros h. vm_compute. discriminate.
  - apply surjective_pairing.
Defined.

(** ** Credentials *)

(** X22: a generation routed to the image API does not depend on
    [OPENROUTER_API_KEY], and one routed to the chat API does not depend
    on [OPENAI_API_KEY]: only the key of the provider used is read. *)
Theorem generate_reads_one_key :
  ∀ env key prompt model_alias input_image output_dir aspect_ratio image_size size
    transparent fast alias w,
    resolve_model prompt model_alias image_size transparent fast w = (Ok alias, w) →
    (PyStr.startswith "gpt-" alias = true →
     generate (with_openrouter_key key env) prompt model_alias input_image output_dir
       aspect_ratio image_size size transparent fast w
     = generate env prompt model_alias input_image output_dir
         aspect_ratio image_size size transparent fast w)
    ∧ (PyStr.startswith "gpt-" alias = false →
       generate (with_openai_key key env) prompt model_alias input_image output_dir
         aspect_ratio image_size size transparent fast w
       = generate env prompt model_alias input_image output_dir
           aspect_ratio image_size size transparent fast w).
Proof.
  intros env key prompt model_alias input_image output_dir aspect_ratio image_size size
    transparent fast alias w Halias.
  split; intros Hgpt; unfold generate; run;
    destruct (load_session w) as [[session | e] w1] eqn:Hload;
    try reflexivity;
    pose proof (steady _ _ _ Hload) as ->;
    rewrite Halias, Hgpt; reflexivity.
Qed.

Lemma generate_reads_one_key_witness :
  generate (with_openrouter_key None (env_up body_image)) "a red circle"
    (Some "gpt-image-1.5") None None None None "auto" false false world0
  = generate (env_up body_image) "a red circle"
      (Some "gpt-image-1.5") None None None None "auto" false false world0.
Proof.
  apply (proj1 (generate_reads_one_key (env_up body_image) None "a red circle"
                  (Some "gpt-image-1.5") None None None None "auto" false false
                  "gpt-image-1.5" world0 eq_refl) eq_refl).
Defined.

(** ** Commands in sequence *)

Lemma main_set_dir (env : Env) (directory : string) (w : World) :
  main env (CmdSetDir directory) w
  = (0, {| session_file :=
             Some (<["output_dir" := JStr (resolve env directory)]>
                     (default default_session (session_file w)));
           fs := fs w; posts := posts w; trace := trace w |}).
Proof.
  unfold main, run_command, load_session, save_session. run.
  destruct (session_file w); reflexivity.
Qed.

(** X23: after [set-dir], a generation without [--output] that returns
    has written an entry of the directory that was set (the string of
    [directory / name]), under a name that starts with "gen_" and the
    timestamp. *)
Theorem set_dir_then_generate :
  ∀ env directory prompt model_alias input_image output_dir aspect_ratio image_size
    size transparent fast w path w',
    opt_truthy output_dir = false →
    PyStr.nonempty (resolve env directory) = true →
    generate env prompt model_alias input_image output_dir aspect_ratio
      image_size size transparent fast (main env (CmdSetDir directory) w).2
    = (Ok path, w') →
    ∃ name, path = PyPath.joinpath (resolve env directory) name
            ∧ PyStr.startswith ("gen" +:+ "_" +:+ now_stamp env +:+ "_") name = true.
Proof.
  intros env directory prompt model_alias input_image output_dir aspect_ratio image_size
    size transparent fast w path w' Hnone Hdir Hgen.
  rewrite main_set_dir in Hgen. cbn [snd] in Hgen.
  destruct (generate_Ok_inv _ _ _ _ _ _ _ _ _ _ _ _ _ Hgen)
    as (session & alias & out & session' & data & w1 & saved
        & Hload & _ & Hout & _ & Hsave & _ & _).
  unfold load_session in Hload. cbn in Hload. injection Hload as <-.
  unfold resolve_output_dir, session_get in Hout.
  rewrite Hnone, lookup_insert_eq in Hout. cbn in Hout. rewrite Hdir in Hout.
  injection Hout as <- _.
  destruct (save_image_Ok_inv _ _ _ _ _ _ _ Hsave) as (s & ext & payload & _ & _ & _ & Hp & _).
  eexists. split; [exact Hp | apply startswith_app].
Qed.

Lemma set_dir_then_generate_witness :
  ∃ name,
    "/gen_20250101_120000_001.png" = PyPath.joinpath (resolve env_root "/") name
    ∧ PyStr.startswith ("gen" +:+ "_" +:+ now_stamp env_root +:+ "_") name = true.
Proof.
  apply (set_dir_then_generate env_root "/" "a red circle"
           (Some "gpt-image-1.5") None None None None "auto" false false world0
           "/gen_20250101_120000_001.png"
           (generate env_root "a red circle" (Some "gpt-image-1.5")
              None None None None "auto" false false
              (main env_root (CmdSetDir "/") world0).2).2
           eq_refl eq_refl).
  vm_compute. reflexivity.
Defined.

(** X24: after [clear], a generation without input image that returns
    starts the history afresh: the session it writes holds exactly one
    record, with no input image, and its path as the current image. *)
Theorem clear_then_generate_fresh_history :
  ∀ env prompt model_alias output_dir aspect_ratio image_size size transparent fast
    w path w',
    generate env prompt model_alias None output_dir aspect_ratio
      image_size size transparent fast (main env CmdClear w).2 = (Ok path, w') →
    ∃ alias saved,
      session_file w' = Some saved
      ∧ saved !! "current_image" = Some (JStr path)
      ∧ saved !! "history"
        = Some (JList [history_record prompt alias JNull path (now_iso env)]).
Proof.
  intros env prompt model_alias output_dir aspect_ratio image_size size transparent fast
    w path w' Hgen.
  destruct (generate_Ok_inv _ _ _ _ _ _ _ _ _ _ _ _ _ Hgen)
    as (session & alias & out & session' & data & w1 & saved
        & Hload & _ & Hout & _ & _ & Hhist & ->).
  unfold load_session in Hload. cbn in Hload. injection Hload as <-.
  assert (Hkeys : ∀ k, k ≠ "output_dir" → session' !! k = default_session !! k)
    by (intros k; exact (resolve_output_dir_other_keys _ _ _ _ _ _ _ k Hout)).
  rewrite (resolve_input_image_same None default_session session') in Hhist
    by (by apply Hkeys).
  unfold append_history in Hhist.
  rewrite lookup_insert_ne, Hkeys in Hhist by discriminate.
  change (default_session !! "history") with (Some (JList [])) in Hhist.
  injection Hhist as <-.
  exists alias. eexists. split; [reflexivity|]. split.
  - rewrite lookup_insert_ne by discriminate. apply lookup_insert_eq.
  - apply lookup_insert_eq.
Qed.

Lemma clear_then_generate_fresh_history_witness :
  ∃ alias saved,
    session_file
      (generate (env_up body_image) "a blue square" (Some "gpt-image-1.5") None None
         None None "auto" false false
         (main (env_up body_image) CmdClear
            (main (env_up body_image)
               (CmdGenerate "a red circle" "gpt-image-1.5" None None None "auto"
                  false false) world0).2).2).2 = Some saved
    ∧ saved !! "current_image"
      = Some (JStr "/proj/generated-images/gen_20250101_120000_002.png")
    ∧ saved !! "history"
      = Some (JList [history_record "a blue square" alias JNull
                       "/proj/generated-images/gen_20250101_120000_002.png"
                       (now_iso (env_up body_image))]).
Proof.
  apply (clear_then_generate_fresh_history (env_up body_image) "a blue square"
           (Some "gpt-image-1.5") None None None "auto" false false
           (main (env_up body_image)
              (CmdGenerate "a red circle" "gpt-image-1.5" None None None "auto"
                 false false) world0).2).
  vm_compute. reflexivity.
Defined.

(** ** The edit command and the current image *)

Lemma post_then_status_sent (env : Env) (url : string) (req : request) (w : World) :
  ∃ x, (response ← post env url req; raise_for_status response;; mret response) w
       = (x, sent url req w).
Proof.
  run. unfold post, raise_for_status.
  destruct (net env (posts w)) as [e | r]; [by eexists|].
  destruct (_ && _); by eexists.
Qed.

Lemma logs_openai_send (P : event → Prop) env prompt model input size quality fmt bg :
  (∀ url req, P (EvPost url req)) →
  Logs P (openai_send env prompt model input size quality fmt bg).
Proof.
  intros HP. unfold openai_send.
  apply logs_bind; [|intros r; apply logs_steady, _].
  destruct (truthy input); [|by apply logs_post].
  apply logs_bind; [apply logs_steady, _ | intros path].
  apply logs_bind; [apply logs_steady, _ | intros _]. by apply logs_post.
Qed.

(** The trace of a retry loop starts with the request of its first
    attempt. *)
Lemma retry_loop_first_event (send : M response) (url : string) (req : request)
    (w w' : World) (r : result response) :
  (∃ x, send w = (x, sent url req w)) →
  Logs (λ _, True) send →
  retry_loop send w = (r, w') →
  ∃ evs, trace w' = trace w ++ EvPost url req :: evs.
Proof.
  intros [x Hsend] Hlogs Hloop.
  unfold retry_loop in Hloop. cbn [seq MAX_RETRIES retry_attempts] in Hloop.
  unfold try_except in Hloop. rewrite Hsend in Hloop.
  destruct x as [resp | e].
  - injection Hloop as _ <-. by exists [].
  - assert (Hrest : Logs (λ _, True) (λ w0 : World,
        (if is_RequestException e
         then if 0 <? 3 - 1
              then sleep (RETRY_BACKOFF_BASE ^ 0);;
                   retry_attempts send [1; 2]
              else reraise e
         else reraise e) w0)).
    { destruct (is_RequestException e); [|apply logs_steady, _]. cbn [Nat.ltb Nat.leb Nat.sub].
      apply logs_bind; [by apply logs_emit | intros _].
      by apply logs_retry_attempts. }
    destruct (Hrest _ _ _ Hloop) as (evs & Ht & _).
    exists evs. rewrite Ht. cbn. by rewrite <- app_assoc.
Qed.

Lemma generate_openai_first_event (env : Env) (prompt model path key size quality
    output_format background : string) (w w' : World) (r : result json) :
  requests_installed env = true →
  OPENAI_API_KEY env = Some key → PyStr.nonempty key = true →
  PyStr.nonempty path = true → path ∈ fs w →
  generate_openai env prompt model (JStr path) size quality output_format background w
  = (r, w') →
  ∃ evs, trace w' = trace w ++
           EvPost "https://api.openai.com/v1/images/edits"
             (Multipart path [("model", model); ("prompt", prompt); ("size", size)]) :: evs.
Proof.
  intros Hreq Hkey Hne Hpath Hin Hgen.
  unfold generate_openai, import_requests in Hgen. rewrite Hreq, Hkey in Hgen.
  apply bind_inv in Hgen as [(u & w0 & Hu & Hgen) | (e & Hu & _)]; [|discriminate].
  injection Hu as _ <-.
  apply bind_inv in Hgen as [(k & w0 & Hk & Hgen) | (e & Hk & _)];
    rewrite (require_key_set key _ w Hne) in Hk; [|discriminate].
  injection Hk as _ <-.
  assert (Hloop : ∀ x w1,
    retry_loop (openai_send env prompt model (JStr path) size quality
                  output_format background) w = (x, w1) →
    ∃ evs, trace w1 = trace w ++
             EvPost "https://api.openai.com/v1/images/edits"
               (Multipart path [("model", model); ("prompt", prompt); ("size", size)]) :: evs).
  { intros x w1. apply retry_loop_first_event; [|by apply logs_openai_send].
    unfold openai_send. cbn [truthy]. rewrite Hpath.
    destruct (post_then_status_sent env "https://api.openai.com/v1/images/edits"
                (Multipart path [("model", model); ("prompt", prompt); ("size", size)]) w)
      as [x' Hx'].
    exists x'. run. unfold as_path, read_b64 in *. run.
    destruct (decide (path ∈ fs w)); [exact Hx' | contradiction]. }
  apply bind_inv in Hgen as [(resp & w1 & Hresp & Hgen) | (e & Hresp & _)].
  - assert (Hst : Steady (response_json resp ≫= λ result,
        lift (data ← getitem result "data"; first ← getidx data 0;
              getitem first "b64_json"))) by apply _.
    rewrite (Hst _ _ _ Hgen). exact (Hloop _ _ Hresp).
  - exact (Hloop _ _ Hresp).
Qed.

(** X25: the [edit] command without [--input], in a session whose current
    image exists, routed to the image API with its key set: the first
    request it sends goes to the edits endpoint and uploads the session's
    current image, with the prompt and the size "auto". *)
Theorem edit_sends_current_image :
  ∀ env prompt model output transparent fast w session current key alias out session',
    session_file w = Some session →
    session !! "current_image" = Some (JStr current) →
    PyStr.nonempty current = true →
    current ∈ fs w →
    requests_installed env = true →
    OPENAI_API_KEY env = Some key → PyStr.nonempty key = true →
    resolve_model prompt (model_arg model) None transparent fast w = (Ok alias, w) →
    PyStr.startswith "gpt-" alias = true →
    resolve_output_dir env output session w = (Ok (out, session'), w) →
    ∃ evs,
      trace (main env (CmdEdit prompt None model output transparent fast) w).2
      = trace w ++
        EvPost "https://api.openai.com/v1/images/edits"
          (Multipart current
             [ ("model", default "" (assoc alias MODELS)); ("prompt", prompt);
               ("size", "auto") ]) :: evs.
Proof.
  intros env prompt model output transparent fast w session current key alias out session'
    Hfile Hcur Hne Hin Hreq Hkey Hkne Halias Hgpt Hout.
  assert (Hinput : resolve_input_image None session' = JStr current).
  { rewrite (resolve_input_image_same None session session')
      by exact (resolve_output_dir_other_keys _ _ _ _ _ _ _ "current_image" Hout
                  ltac:(discriminate)).
    by apply resolve_input_image_falls_back. }
  assert (Hgen : ∀ r w',
    generate env prompt (model_arg model) None output None None "auto" transparent fast w
    = (r, w') →
    ∃ evs, trace w' = trace w ++
             EvPost "https://api.openai.com/v1/images/edits"
               (Multipart current
                  [ ("model", default "" (assoc alias MODELS)); ("prompt", prompt);
                    ("size", "auto") ]) :: evs).
  { intros r w' Hgen. unfold generate in Hgen.
    apply bind_inv in Hgen as [(s & w0 & Hload & Hgen) | (e & Hload & _)];
      unfold load_session in Hload; rewrite Hfile in Hload; [|discriminate].
    injection Hload as <- <-.
    apply bind_inv in Hgen as [(a & w0 & Ha & Hgen) | (e & Ha & _)];
      rewrite Halias in Ha; [|discriminate].
    injection Ha as <- <-.
    apply bind_inv in Hgen as [(os & w0 & Ho & Hgen) | (e & Ho & _)];
      rewrite Hout in Ho; [|discriminate].
    injection Ho as <- <-. cbv beta iota in Hgen.
    rewrite Hgpt, Hinput in Hgen.
    apply bind_inv in Hgen as [(data & w1 & Hdata & Hgen) | (e & Hdata & _)];
      destruct (generate_openai_first_event _ _ _ _ _ _ _ _ _ _ _ _
                  Hreq Hkey Hkne Hne Hin Hdata) as (evs1 & Ht1); [|by exists evs1].
    match type of Hgen with
    | ?m w1 = _ => assert (HL : Logs (λ _, True) m)
    end.
    { apply logs_bind; [apply logs_save_image | intros saved].
      apply logs_bind; [apply logs_steady, _ | intros session''].
      apply logs_bind; [|intros _; apply logs_steady, _].
      apply logs_silent. by intros w0 r0 w0' [= _ <-]. }
    destruct (HL _ _ _ Hgen) as (evs2 & Ht2 & _).
    exists (evs1 ++ evs2). rewrite Ht2, Ht1, <- app_assoc. reflexivity. }
  unfold main, run_command. run.
  destruct (generate env prompt (model_arg model) None output None None "auto"
              transparent fast w) as [[path | e] w'];
    exact (Hgen _ _ eq_refl).
Qed.

Lemma edit_sends_current_image_witness :
  ∃ evs,
    trace (main (env_up body_image)
             (CmdEdit "make it blue" None "gpt-image-1.5" None false false)
             (main (env_up body_image)
                (CmdGenerate "a red circle" "gpt-image-1.5" None None None "auto"
                   false false) world0).2).2
    = trace (main (env_up body_image)
               (CmdGenerate "a red circle" "gpt-image-1.5" None None None "auto"
                  false false) world0).2 ++
      EvPost "https://api.openai.com/v1/images/edits"
        (Multipart "/proj/generated-images/gen_20250101_120000_001.png"
           [ ("model", default "" (assoc "gpt-image-1.5" MODELS));
             ("prompt", "make it blue"); ("size", "auto") ]) :: evs.
Proof.
  eapply (edit_sends_current_image (env_up body_image) "make it blue" "gpt-image-1.5"
            None false false _ _ "/proj/generated-images/gen_20250101_120000_001.png"
            "sk-test" "gpt-image-1.5").
  - vm_compute. reflexivity.
  - vm_compute. reflexivity.
  - reflexivity.
  - apply (bool_decide_unpack _). vm_compute. exact I.
  - reflexivity.
  - reflexivity.
  - reflexivity.
  - reflexivity.
  - reflexivity.
  - vm_compute. reflexivity.
Defined.

(** ** The chat adapter's answer and the file counter *)

(** X26: from a response with a non-error status whose body is an object,
    the chat adapter returns what [extract_image] finds in the "message"
    of the first element of "choices"; it raises [KeyError] when
    "choices" is missing and [IndexError] when "choices" is an empty
    list. *)
Theorem generate_openrouter_result :
  ∀ env w r d prompt model input_image key aspect_ratio image_size,
    requests_installed env = true →
    OPENROUTER_API_KEY env = Some key → PyStr.nonempty key = true →
    input_ready w input_image →
    success (net env (posts w)) = Some r →
    body r = Some (JDict d) →
    let run := generate_openrouter env prompt model input_image aspect_ratio
                 image_size w in
    (∀ choice rest message,
        assoc "choices" d = Some (JList (JDict choice :: rest)) →
        assoc "message" choice = Some message → run.1 = extract_image message)
    ∧ (assoc "choices" d = None → run.1 = Raise (Exn KeyError "choices"))
    ∧ (assoc "choices" d = Some (JList []) →
       run.1 = Raise (Exn IndexError "list index out of range")).
Proof.
  intros env w r d prompt model input_image key aspect_ratio image_size
    Hreq Hkey Hne Hin Hs Hbody run0.
  destruct (image_content_ready env input_image w Hin) as [part Hpart].
  assert (Hrun : run0.1
    = (message ← (choices ← getitem (JDict d) "choices"; choice ← getidx choices 0;
                  getitem choice "message");
       extract_image message)).
  { subst run0. unfold generate_openrouter, import_requests. rewrite Hreq, Hkey.
    run. rewrite (require_key_set key _ w Hne), Hpart.
    rewrite (retry_loop_first_ok _ _ _ _ (openrouter_send_ok env _ w r Hs)).
    unfold response_json. rewrite Hbody. run.
    match goal with
    | |- context [match ?x with Ok _ => _ | Raise _ => _ end] => destruct x
    end; reflexivity. }
  rewrite Hrun. cbn. split; [|split].
  - intros choice rest message Hc Hm. rewrite Hc. cbn. rewrite Hm. reflexivity.
  - intros ->. reflexivity.
  - intros ->. reflexivity.
Qed.

Lemma generate_openrouter_result_witness :
  (generate_openrouter (env_up body_unknown_shape) "a cat"
     "google/gemini-3-pro-image-preview" JNull None None world0).1
  = extract_image message_unknown_shape.
Proof.
  apply (proj1 (generate_openrouter_result (env_up body_unknown_shape) world0
                  (Response 200 (Some body_unknown_shape))
                  [("choices", JList [JDict [("message", message_unknown_shape)]])]
                  "a cat" "google/gemini-3-pro-image-preview" JNull "sk-or-test" None None
                  eq_refl eq_refl eq_refl (or_introl eq_refl) eq_refl eq_refl)
           [("message", message_unknown_shape)] [] message_unknown_shape eq_refl eq_refl).
Defined.

(** X27: the counter [f"{index:03d}"] is exactly three characters long
    for every index below 1000, and four for index 1000: the file names
    keep their three-digit form as long as fewer than 999 entries match. *)
Theorem fmt_03d_width :
  (∀ n, n < 1000 → String.length (fmt_03d n) = 3)
  ∧ fmt_03d 999 = "999" ∧ fmt_03d 1000 = "1000".
Proof.
  split; [|split; vm_compute; reflexivity].
  assert (Hall : forallb (λ n, String.length (fmt_03d n) =? 3) (seq 0 1000) = true)
    by (vm_compute; reflexivity).
  rewrite forallb_forall in Hall. intros n Hn.
  apply Nat.eqb_eq, Hall, in_seq. lia.
Qed.

Lemma fmt_03d_width_witness : String.length (fmt_03d 42) = 3.
Proof. apply (proj1 fmt_03d_width 42). lia. Defined.
